(** * chocapix-server: the account ledger and the overdraft ("agios") engine

    A shallow embedding of [bars_core/models/bar.py] and
    [bars_core/models/account.py]: the [Account], [Bar] and [BarSettings]
    rows, the tables they live in, [Account.save], [Bar.save],
    [Bar.apply_agios], [makeAgiosTransaction], [Bar.count_accounts] and
    [AccountViewSet.ranking].

    Python floats are IEEE 754 binary64 numbers and are modelled by Rocq's
    primitive floats, so [>=], [<], [abs] and [*] below are the very
    operations the interpreter performs (NaN and signed zeros included). *)

From Stdlib Require Import ZArith Floats.
From stdpp Require Import gmap strings list fin_maps.

Set Warnings "-inexact-float".

#[local] Open Scope Z_scope.

(** ** Python's [datetime] module, as far as [apply_agios] uses it *)

Module datetime.

(** A [date] is its proleptic Gregorian ordinal ([date.toordinal()]). *)
Definition date : Type := Z.

(** A [timedelta] is normalised by Python to (days, seconds, microseconds)
    with [0 <= seconds < 86400] and [0 <= microseconds < 10^6]; comparing
    two of them compares these triples, that is, the total number of
    microseconds, which is what we keep. *)
Definition timedelta : Type := Z.

Definition us_per_day : Z := 86400000000.
Definition max_delta_days : Z := 999999999.

(** [date.fromtimestamp]: the day a POSIX timestamp (in microseconds)
    falls on; 719163 is the ordinal of 1970-01-01. *)
Definition date_of_timestamp (us : Z) : date := us / us_per_day + 719163.

(** [date.__sub__] on two dates: a whole number of days. *)
Definition date_sub (a b : date) : timedelta := (a - b) * us_per_day.

(** [timedelta.__ge__]. *)
Definition timedelta_ge (a b : timedelta) : bool := b <=? a.

Inductive conversion_error : Type := NaNToInteger | InfinityToInteger | DaysOutOfRange.

(** C's [modf]: the integral part, rounded toward zero, as an integer
    ([PyLong_FromDouble]) and the fractional part as a double.  The
    subtraction is exact.  NaN and the infinities have no integral part. *)
Definition modf (x : float) : conversion_error + (Z * float) :=
  match Prim2SF x with
  | S754_nan => inl NaNToInteger
  | S754_infinity _ => inl InfinityToInteger
  | S754_zero _ => inr (0, x)
  | S754_finite s m e =>
      if 0 <=? e then
        let n := Z.pos m * 2 ^ e in
        inr (if s then - n else n, 0%float)
      else
        let n := Z.shiftr (Z.pos m) (- e) in
        let whole := PrimFloat.of_uint63 (Uint63.of_Z n) in
        if s then inr (- n, (x + whole)%float) else inr (n, (x - whole)%float)
  end.

(** [round_to_long] of CPython 2.7's [datetimemodule.c]:
    [floor(x + 0.5)] for [x >= 0] and [ceil(x - 0.5)] otherwise; both are
    a truncation toward zero of the shifted value. *)
Definition round_to_long (x : float) : Z :=
  let shifted := if (0 <=? x)%float then (x + 0.5)%float else (x - 0.5)%float in
  match modf shifted with
  | inr (n, _) => n
  | inl _ => 0
  end.

(** [timedelta(days)] for a float argument, following [delta_new] and
    [accum]: the whole days are converted exactly, the fraction of a day
    is multiplied by the number of microseconds per day in double
    arithmetic, and what is left below a microsecond is rounded.  The
    constructor raises [ValueError] on NaN and [OverflowError] on an
    infinity or when the result exceeds 999999999 days in magnitude. *)
Definition timedelta_of_days (days : float) : conversion_error + timedelta :=
  match modf days with
  | inl err => inl err
  | inr (whole, frac) =>
      let us :=
        if (frac =? 0)%float then whole * us_per_day
        else
          match modf (86400000000 * frac)%float with
          | inr (n, leftover) =>
              whole * us_per_day + n
              + (if (leftover =? 0)%float then 0 else round_to_long leftover)
          | inl _ => whole * us_per_day
          end in
      if Z.abs (us / us_per_day) <=? max_delta_days then inr us
      else inl DaysOutOfRange
  end.

End datetime.

(** ** Rows and tables *)

(** Primary keys of the auto-incremented tables. *)
Definition pk : Type := N.

(** [auth.User] as the ledger sees it. *)
Record User : Type := {
  User_id : pk;
  User_username : string;
}.

(** [class Bar(models.Model)]: [id] is the primary key. *)
Record Bar : Type := {
  Bar_id : string;
  Bar_name : string;
}.

(** [class BarSettings(models.Model)].  The one-to-one field [bar] is the
    primary key, so a row is stored under its bar's id and does not repeat
    it.  Date-times are POSIX timestamps in microseconds. *)
Record BarSettings : Type := {
  BarSettings_next_scheduled_appro : option Z;
  BarSettings_money_warning_threshold : float;
  BarSettings_transaction_cancel_threshold : float;
  BarSettings_default_tax : float;
  BarSettings_agios_enabled : bool;
  BarSettings_agios_threshold : float;
  BarSettings_agios_factor : float;
  BarSettings_last_modified : Z;
}.

(** The field defaults of [BarSettings]; [last_modified] is [auto_now]. *)
Definition BarSettings_defaults (now : Z) : BarSettings := {|
  BarSettings_next_scheduled_appro := None;
  BarSettings_money_warning_threshold := 15;
  BarSettings_transaction_cancel_threshold := 48;
  BarSettings_default_tax := 0.2;
  BarSettings_agios_enabled := true;
  BarSettings_agios_threshold := 2;
  BarSettings_agios_factor := 0.05;
  BarSettings_last_modified := now;
|}.

(** [class Account(models.Model)].  [Account_id] is [None] for an object
    that was never saved; [bar] and [owner] hold the keys of the rows they
    point to. *)
Record Account : Type := {
  Account_id : option pk;
  Account_bar : string;
  Account_owner : pk;
  Account_money : float;
  Account_overdrawn_since : option datetime.date;
  Account_deleted : bool;
  Account_last_modified : Z;
}.

Definition set_overdrawn_since (d : option datetime.date) (a : Account) : Account := {|
  Account_id := Account_id a;
  Account_bar := Account_bar a;
  Account_owner := Account_owner a;
  Account_money := Account_money a;
  Account_overdrawn_since := d;
  Account_deleted := Account_deleted a;
  Account_last_modified := Account_last_modified a;
|}.

Definition set_money (m : float) (a : Account) : Account := {|
  Account_id := Account_id a;
  Account_bar := Account_bar a;
  Account_owner := Account_owner a;
  Account_money := m;
  Account_overdrawn_since := Account_overdrawn_since a;
  Account_deleted := Account_deleted a;
  Account_last_modified := Account_last_modified a;
|}.

(** What [Model.save] writes back into the object: the key it was stored
    under and the refreshed [auto_now] field. *)
Definition stored_as (k : pk) (now : Z) (a : Account) : Account := {|
  Account_id := Some k;
  Account_bar := Account_bar a;
  Account_owner := Account_owner a;
  Account_money := Account_money a;
  Account_overdrawn_since := Account_overdrawn_since a;
  Account_deleted := Account_deleted a;
  Account_last_modified := now;
|}.

(** A [Role] row is identified by (name, bar, user); the table is kept as
    the set of these triples, which is all [get_or_create] looks at. *)
Definition Role : Type := string * string * pk.

(** The payload [makeAgiosTransaction] hands to the transaction
    serializer: [{'type': 'agios', 'account': account.id, 'amount': amount}]. *)
Record TransactionData : Type := {
  data_type : string;
  data_account : option pk;
  data_amount : float;
}.

(** The serializer context: [Mock(bar=bar, user=user)], where the user's
    [has_perm] has been replaced by [Mock(return_value=True)]. *)
Record RequestContext : Type := {
  request_bar : Bar;
  request_user : User;
  request_user_has_perm : bool;
}.

(** The persistent store and the clock.  [transaction_log] lists the
    requests the transaction serializer has saved, latest first. *)
Record World : Type := {
  bar_table : gmap string Bar;
  barsettings_table : gmap string BarSettings;
  account_table : gmap pk Account;
  role_table : gset Role;
  transaction_log : list (TransactionData * RequestContext);
  clock : Z;
}.

Definition with_bars (t : gmap string Bar) (w : World) : World := {|
  bar_table := t; barsettings_table := barsettings_table w;
  account_table := account_table w; role_table := role_table w;
  transaction_log := transaction_log w; clock := clock w |}.

Definition with_barsettings (t : gmap string BarSettings) (w : World) : World := {|
  bar_table := bar_table w; barsettings_table := t;
  account_table := account_table w; role_table := role_table w;
  transaction_log := transaction_log w; clock := clock w |}.

Definition with_accounts (t : gmap pk Account) (w : World) : World := {|
  bar_table := bar_table w; barsettings_table := barsettings_table w;
  account_table := t; role_table := role_table w;
  transaction_log := transaction_log w; clock := clock w |}.

Definition with_roles (t : gset Role) (w : World) : World := {|
  bar_table := bar_table w; barsettings_table := barsettings_table w;
  account_table := account_table w; role_table := t;
  transaction_log := transaction_log w; clock := clock w |}.

Definition with_log (l : list (TransactionData * RequestContext)) (w : World) : World := {|
  bar_table := bar_table w; barsettings_table := barsettings_table w;
  account_table := account_table w; role_table := role_table w;
  transaction_log := l; clock := clock w |}.

(** [date.today()]. *)
Definition today (w : World) : datetime.date := datetime.date_of_timestamp (clock w).

(** ** Exceptions and the state monad of a request *)

Inductive exn : Type :=
| DoesNotExist        (* [self.settings] on a bar without a settings row *)
| ValueError          (* [timedelta(nan)] *)
| OverflowError       (* [timedelta] of an infinity or of too many days *)
| TypeError           (* a date minus [None] *)
| ValidationError.    (* [is_valid(raise_exception=True)] *)

Inductive outcome (A : Type) : Type :=
| Returns (a : A) (w : World)
| Raises (e : exn) (w : World).
Arguments Returns {A} a w.
Arguments Raises {A} e w.

Definition M (A : Type) : Type := World -> outcome A.

Definition ret {A} (a : A) : M A := fun w => Returns a w.
Definition raise {A} (e : exn) : M A := fun w => Raises e w.
Definition bind {A B} (m : M A) (k : A -> M B) : M B :=
  fun w => match m w with
           | Returns a w' => k a w'
           | Raises e w' => Raises e w'
           end.
Definition get : M World := fun w => Returns w w.
Definition modify (f : World -> World) : M unit := fun w => Returns tt (f w).

Declare Scope py_scope.
Delimit Scope py_scope with py.
Notation "x <- m ;; k" := (bind m (fun x => k))
  (at level 100, m at next level, right associativity) : py_scope.
Notation "m ;;; k" := (bind m (fun _ => k))
  (at level 100, right associativity) : py_scope.

#[local] Open Scope py_scope.

(** ** [bars_core/models/account.py] *)

(** Python truthiness of a primary key: [None] and [0] are falsy. *)
Definition truthy (k : option pk) : bool :=
  match k with
  | Some (Npos _) => true
  | Some N0 | None => false
  end.

(** [Role.objects.get_or_create(name=..., bar=..., user=...)]. *)
Definition Role_get_or_create (name bar : string) (user : pk) : M unit :=
  modify (fun w => with_roles ({[ (name, bar, user) ]} ∪ role_table w) w).

(** The key [models.Model.save] stores an object under: its own, or, for an
    object that has none, the next key of the auto-incremented column: one
    the table does not use yet, and never 0 (the first key is 1). *)
Definition saved_key (self : Account) (w : World) : pk :=
  match Account_id self with
  | Some k => k
  | None => fresh ({[ 0%N ]} ∪ dom (account_table w))
  end.

(** [models.Model.save] on an account, as the write proceeds once the
    database has accepted the row: the [auto_now] field is refreshed, an
    object without a key is inserted, and an object with a key replaces
    (or creates) the row of that key.  The object learns its key and its
    new [last_modified]; the result is the object after the call.  The
    refusal of a second row with the same (bar, owner) pair is
    [Model_save_checked] below; it cannot arise when an object loaded from
    the table is saved back, which is how [apply_agios] saves. *)
Definition Model_save (self : Account) : M Account :=
  fun w =>
    let k := saved_key self w in
    let self' := stored_as k (clock w) self in
    Returns self' (with_accounts (<[k := self']> (account_table w)) w).

(** [Account.save]. *)
Definition Account_save (self : Account) : M Account :=
  (if negb (truthy (Account_id self))
   then Role_get_or_create "customer" (Account_bar self) (Account_owner self)
   else ret tt) ;;;
  Model_save self.

(** ** [bars_core/models/bar.py] *)

(** [BarSettings.objects.get_or_create(bar=self)]: the row of that bar, and
    whether it had to be created (with the field defaults). *)
Definition BarSettings_get_or_create (bar : Bar) : M (BarSettings * bool) :=
  fun w =>
    match barsettings_table w !! Bar_id bar with
    | Some s => Returns (s, false) w
    | None =>
        let s := BarSettings_defaults (clock w) in
        Returns (s, true)
                (with_barsettings (<[Bar_id bar := s]> (barsettings_table w)) w)
    end.

(** [Bar.save]: store the bar row, then make sure its settings exist. *)
Definition Bar_save (self : Bar) : M unit :=
  modify (fun w => with_bars (<[Bar_id self := self]> (bar_table w)) w) ;;;
  BarSettings_get_or_create self ;;;
  ret tt.

(** [self.settings], the reverse side of the one-to-one field. *)
Definition Bar_settings (self : Bar) : M BarSettings :=
  fun w =>
    match barsettings_table w !! Bar_id self with
    | Some s => Returns s w
    | None => Raises DoesNotExist w
    end.

(** [timedelta(days)] with the exceptions it raises. *)
Definition timedelta (days : float) : M datetime.timedelta :=
  match datetime.timedelta_of_days days with
  | inr td => ret td
  | inl datetime.NaNToInteger => raise ValueError
  | inl _ => raise OverflowError
  end.

(** [abs(account.money) * self.settings.agios_factor]. *)
Definition agios_delta (money factor : float) : float := (abs money * factor)%float.

(** [self.account_set], [.filter(deleted=...)] and [.count()]. *)
Definition Bar_account_set (self : Bar) (w : World) : gmap pk Account :=
  filter (fun kr => Account_bar kr.2 = Bar_id self) (account_table w).

Definition filter_deleted (v : bool) (qs : gmap pk Account) : gmap pk Account :=
  filter (fun kr => Account_deleted kr.2 = v) qs.

Definition count (qs : gmap pk Account) : nat := size qs.

(** [Bar.count_accounts]. *)
Definition Bar_count_accounts (self : Bar) (w : World) : nat :=
  count (filter_deleted false (Bar_account_set self w)).

(** The accounts that count, picked row by row from the whole table:
    those of the bar whose soft-delete flag is off. *)
Definition is_active_account_of (self : Bar) (a : Account) : Prop :=
  Account_bar a = Bar_id self /\ Account_deleted a = false.

#[global] Instance is_active_account_of_dec (self : Bar) (a : Account) :
  Decision (is_active_account_of self a) :=
  and_dec (decide (Account_bar a = Bar_id self)) (decide (Account_deleted a = false)).

Definition active_accounts (self : Bar) (w : World) : list Account :=
  filter (is_active_account_of self) (map_to_list (account_table w)).*2.

(** Soft deletion: the row stays, its flag is raised. *)
Definition set_deleted (v : bool) (a : Account) : Account := {|
  Account_id := Account_id a;
  Account_bar := Account_bar a;
  Account_owner := Account_owner a;
  Account_money := Account_money a;
  Account_overdrawn_since := Account_overdrawn_since a;
  Account_deleted := v;
  Account_last_modified := Account_last_modified a;
|}.

(** [unique_together = ("bar", "owner")]: no two rows share the pair. *)
Definition unique_together (t : gmap pk Account) : Prop :=
  forall j k a b,
    t !! j = Some a -> t !! k = Some b ->
    Account_bar a = Account_bar b -> Account_owner a = Account_owner b -> j = k.

(** The companion invariant: every stored bar has a settings row. *)
Definition has_companions (w : World) : Prop :=
  forall id, is_Some (bar_table w !! id) -> is_Some (barsettings_table w !! id).

Section Engine.

(** Code of the repository that lives outside this tree and is taken as
    given: [bars_core.models.user.get_default_user] and the validation
    rules of [bars_transactions.serializers.AgiosTransactionSerializer]. *)
Variable get_default_user : World -> User.
Variable AgiosTransactionSerializer_is_valid :
  TransactionData -> RequestContext -> World -> bool.

(** Modelled from the spec: [AgiosTransactionSerializer.save] is missing
    from this tree.  It is the ledger mutation service for a fee: the
    request is appended to the transaction log and the fee is taken from
    the balance of the stored account, whose [last_modified] is
    refreshed. *)
Definition AgiosTransactionSerializer_save
    (data : TransactionData) (context : RequestContext) : M unit :=
  modify (fun w =>
    let debit k a :=
      stored_as k (clock w) (set_money (Account_money a - data_amount data)%float a) in
    let accounts :=
      match data_account data with
      | Some k => alter (debit k) k (account_table w)
      | None => account_table w
      end in
    with_log ((data, context) :: transaction_log w) (with_accounts accounts w)).

(** [makeAgiosTransaction]. *)
Definition makeAgiosTransaction (bar : Bar) (account : Account) (amount : float) : M unit :=
  w <- get ;;
  let user := get_default_user w in
  let data := {| data_type := "agios";
                 data_account := Account_id account;
                 data_amount := amount |} in
  let context := {| request_bar := bar;
                    request_user := user;
                    request_user_has_perm := true |} in
  if AgiosTransactionSerializer_is_valid data context w
  then AgiosTransactionSerializer_save data context
  else raise ValidationError.

(** [Bar.apply_agios].  The result pairs the returned number with the
    [account] object as the call leaves it; the [0] of the last line is
    the float zero, which Python's [0] equals.  [date.today()] is read off
    the clock, which does not advance during the call. *)
Definition Bar_apply_agios (self : Bar) (account : Account) : M (float * Account) :=
  if (0 <=? Account_money account)%float
     && bool_decide (Account_overdrawn_since account <> None)
  then
    account <- Account_save (set_overdrawn_since None account) ;;
    ret (0%float, account)
  else if (Account_money account <? 0)%float then
    w <- get ;;
    account <- match Account_overdrawn_since account with
               | None => Account_save (set_overdrawn_since (Some (today w)) account)
               | Some _ => ret account
               end ;;
    settings <- Bar_settings self ;;
    if BarSettings_agios_enabled settings then
      elapsed <- match Account_overdrawn_since account with
                 | Some since => ret (datetime.date_sub (today w) since)
                 | None => raise TypeError
                 end ;;
      threshold <- timedelta (BarSettings_agios_threshold settings) ;;
      if datetime.timedelta_ge elapsed threshold then
        let delta := agios_delta (Account_money account)
                                 (BarSettings_agios_factor settings) in
        makeAgiosTransaction self account delta ;;;
        ret (delta, account)
      else ret (0%float, account)
    else ret (0%float, account)
  else ret (0%float, account).

End Engine.

(** ** [AccountViewSet.ranking] *)

Record Request : Type := {
  Request_bar : option Bar;
  Request_user : User;
}.

Definition Ranking : Type := list (pk * float).

Inductive ResponseBody : Type :=
| Text (content : string)
| Data (ranking : Ranking).

Record HttpResponse : Type := {
  status_code : Z;
  body : ResponseBody;
}.

Definition HttpResponseBadRequest (content : string) : HttpResponse :=
  {| status_code := 400; body := Text content |}.

Definition Response (data : Ranking) (status : Z) : HttpResponse :=
  {| status_code := status; body := Data data |}.

Section Stats.

(** The aggregation over the transaction log of one bar belongs to the
    statistics layer and is taken as given. *)
Variable ranking_within : Bar -> Request -> World -> Ranking.

(** Modelled from the spec: [bars_stats.utils.compute_account_ranking] is
    missing from this tree.  A ranking exists only within a bar: without a
    bar on the request there is no ranking ([None]), otherwise it is the
    aggregate of that bar. *)
Definition compute_account_ranking (request : Request) (w : World) : option Ranking :=
  match Request_bar request with
  | None => None
  | Some bar => Some (ranking_within bar request w)
  end.

(** [AccountViewSet.ranking]. *)
Definition AccountViewSet_ranking (request : Request) (w : World) : HttpResponse :=
  let ranking := compute_account_ranking request w in
  match ranking with
  | None => HttpResponseBadRequest "I can only give a ranking within a bar"
  | Some ranking => Response ranking 200
  end.

End Stats.

(** ** Sample data *)

Definition accept_all : TransactionData -> RequestContext -> World -> bool :=
  fun _ _ _ => true.

Definition bot : User := {| User_id := 1%N; User_username := "bar" |}.
Definition the_bot : World -> User := fun _ => bot.

Definition avironjone : Bar := {| Bar_id := "avironjone"; Bar_name := "Aviron" |}.

(** An account of [avironjone], stored under key 7. *)
Definition account7 (money : float) (since : option datetime.date) : Account := {|
  Account_id := Some 7%N;
  Account_bar := "avironjone";
  Account_owner := 3%N;
  Account_money := money;
  Account_overdrawn_since := since;
  Account_deleted := false;
  Account_last_modified := 0;
|}.

Definition settings_with (enabled : bool) (threshold factor : float) : BarSettings := {|
  BarSettings_next_scheduled_appro := None;
  BarSettings_money_warning_threshold := 15;
  BarSettings_transaction_cancel_threshold := 48;
  BarSettings_default_tax := 0.2;
  BarSettings_agios_enabled := enabled;
  BarSettings_agios_threshold := threshold;
  BarSettings_agios_factor := factor;
  BarSettings_last_modified := 0;
|}.

(** A store with the bar, its settings and the account, at noon of the
    day with ordinal [day]. *)
Definition world_on (day : Z) (settings : BarSettings) (account : Account) : World := {|
  bar_table := {[ "avironjone" := avironjone ]};
  barsettings_table := {[ "avironjone" := settings ]};
  account_table := {[ 7%N := account ]};
  role_table := {[ ("customer", "avironjone", 3%N) ]};
  transaction_log := [];
  clock := (day - 719163) * datetime.us_per_day + 43200000000;
|}.

Definition no_ranking : Bar -> Request -> World -> Ranking := fun _ _ _ => [].

Definition anonymous_request : Request := {| Request_bar := None; Request_user := bot |}.

(** The store an outcome leaves behind. *)
Definition world_after {A} (o : outcome A) : World :=
  match o with
  | Returns _ w | Raises _ w => w
  end.

(** The fee request of the sample account. *)
Definition fee_entry (amount : float) : TransactionData * RequestContext :=
  ({| data_type := "agios"; data_account := Some 7%N; data_amount := amount |},
   {| request_bar := avironjone; request_user := bot; request_user_has_perm := true |}).

(** ** [get_default_account] *)

(** [QuerySet.get]: the single row of a query set, or which of its two
    errors. *)
Inductive get_result : Type :=
| Got (k : pk) (a : Account)
| NoRow                 (* [DoesNotExist] *)
| ManyRows.             (* [MultipleObjectsReturned] *)

Definition QuerySet_get (qs : gmap pk Account) : get_result :=
  match map_to_list qs with
  | [] => NoRow
  | [(k, a)] => Got k a
  | _ :: _ :: _ => ManyRows
  end.

(** [Account.objects.filter(owner=user, bar=bar)]. *)
Definition accounts_of (owner : pk) (bar : string) (w : World) : gmap pk Account :=
  filter (fun kr => Account_owner kr.2 = owner /\ Account_bar kr.2 = bar)
         (account_table w).

(** An object read from the row stored under [k]. *)
Definition loaded (k : pk) (a : Account) : Account := {|
  Account_id := Some k;
  Account_bar := Account_bar a;
  Account_owner := Account_owner a;
  Account_money := Account_money a;
  Account_overdrawn_since := Account_overdrawn_since a;
  Account_deleted := Account_deleted a;
  Account_last_modified := Account_last_modified a;
|}.

(** [Account(owner=user, bar=bar)]: the field defaults of the model.  The
    [auto_now] field has no value before the first save; it is written by
    [save] and never read before. *)
Definition Account_new (owner : pk) (bar : string) : Account := {|
  Account_id := None;
  Account_bar := bar;
  Account_owner := owner;
  Account_money := 0;
  Account_overdrawn_since := None;
  Account_deleted := false;
  Account_last_modified := 0;
|}.

Inductive orm_error : Type :=
| MultipleObjectsReturned
| Propagated (e : exn).

(** [Account.objects.get_or_create(owner=user, bar=bar)]: the stored
    account if there is one, otherwise a new one, saved through
    [Account.save]; the flag tells whether it was created. *)
Definition Account_get_or_create (owner : pk) (bar : string) (w : World)
  : orm_error + (Account * bool * World) :=
  match QuerySet_get (accounts_of owner bar w) with
  | Got k a => inr (loaded k a, false, w)
  | ManyRows => inl MultipleObjectsReturned
  | NoRow =>
      match Account_save (Account_new owner bar) w with
      | Returns a w' => inr (a, true, w')
      | Raises e _ => inl (Propagated e)
      end
  end.

Section DefaultAccount.

Variable get_default_user : World -> User.

(** [get_default_account]. *)
Definition get_default_account (bar : Bar) (w : World) : orm_error + (Account * World) :=
  let user := get_default_user w in
  match Account_get_or_create (User_id user) (Bar_id bar) w with
  | inr (x, _, w') => inr (x, w')
  | inl e => inl e
  end.

End DefaultAccount.

(** Rows carry the key they are stored under. *)
Definition rows_know_their_key (t : gmap pk Account) : Prop :=
  forall k a, t !! k = Some a -> Account_id a = Some k.

(** What an outcome returns, if it returns. *)
Definition value_or {A} (d : A) (o : outcome A) : A :=
  match o with
  | Returns a _ => a
  | Raises _ _ => d
  end.

(** The state in which [apply_agios] takes the decision about the fee of
    an overdrawn account: the object and the store as they are once the
    start date is known (as they were, or after today's date was stored). *)
Definition start_known (account : Account) (w : World) : Account * World :=
  match Account_overdrawn_since account with
  | Some _ => (account, w)
  | None =>
      let saved := Account_save (set_overdrawn_since (Some (today w)) account) w in
      (value_or account saved, world_after saved)
  end.

(** The exception [timedelta] raises for a conversion error. *)
Definition timedelta_exn (err : datetime.conversion_error) : exn :=
  match err with
  | datetime.NaNToInteger => ValueError
  | datetime.InfinityToInteger | datetime.DaysOutOfRange => OverflowError
  end.

(** ** [bars_api/auth.py] *)

(** [class User(models.Model)] of [bars_api]. *)
Record AuthUser : Type := {
  AuthUser_username : string;
  AuthUser_password : string;
  AuthUser_full_name : string;
  AuthUser_pseudo : string;
  AuthUser_last_login : Z;
  AuthUser_last_modified : Z;
}.

Definition with_password (password : string) (u : AuthUser) : AuthUser := {|
  AuthUser_username := AuthUser_username u;
  AuthUser_password := password;
  AuthUser_full_name := AuthUser_full_name u;
  AuthUser_pseudo := AuthUser_pseudo u;
  AuthUser_last_login := AuthUser_last_login u;
  AuthUser_last_modified := AuthUser_last_modified u;
|}.

Section Auth.

(** [hashlib.sha512(password).hexdigest()]: the digest is taken as given. *)
Variable sha512_hexdigest : string -> string.

(** [make_password]. *)
Definition make_password (password : string) : string := sha512_hexdigest password.

(** [User.set_password]. *)
Definition set_password (self : AuthUser) (raw_password : string) : AuthUser :=
  with_password (make_password raw_password) self.

(** [User.check_password]. *)
Definition check_password (self : AuthUser) (raw_password : string) : bool :=
  bool_decide (AuthUser_password self = make_password raw_password).

(** [User.set_unusable_password]. *)
Definition set_unusable_password (self : AuthUser) : AuthUser :=
  with_password (make_password "") self.

(** [User.has_usable_password]. *)
Definition has_usable_password (self : AuthUser) : bool :=
  bool_decide (AuthUser_password self = make_password "").

End Auth.

(** [User.get_username], [get_short_name], [get_full_name], [natural_key]. *)
Definition get_username (self : AuthUser) : string := AuthUser_username self.
Definition get_short_name (self : AuthUser) : string := AuthUser_username self.
Definition get_full_name (self : AuthUser) : string := AuthUser_full_name self.
Definition natural_key (self : AuthUser) : list string := [get_username self].

(** ** [bars_items/models/itemdetails.py] *)

(** The values of a serialized object. *)
Inductive json : Type :=
| JNull
| JInt (n : Z)
| JFloat (x : float)
| JString (s : string).

(** A [StockItem] row as this file uses it: its key, its bar and the
    [ItemDetails] it is a stock of. *)
Record StockItem : Type := {
  StockItem_id : pk;
  StockItem_bar : string;
  StockItem_details : pk;
}.

(** [class ItemDetails(models.Model)].  [ItemDetails_stockitems] is the
    list the views prefetch into the attribute [stockitems]; it is [None]
    on an object that was loaded without the prefetch. *)
Record ItemDetails : Type := {
  ItemDetails_id : pk;
  ItemDetails_name : string;
  ItemDetails_name_plural : string;
  ItemDetails_brand : string;
  ItemDetails_container : string;
  ItemDetails_container_plural : string;
  ItemDetails_unit : string;
  ItemDetails_unit_plural : string;
  ItemDetails_container_qty : float;
  ItemDetails_ranking_unit : string;
  ItemDetails_ranking_unit_factor : float;
  ItemDetails_keywords : string;
  ItemDetails_stockitems : option (list StockItem);
}.

(** The request a serializer finds in its context.  The attribute [bar]
    is put on the request by a middleware: [SerializerRequest_bar] is
    [None] on a request that has no such attribute, [Some None] when the
    attribute is [None]. *)
Record SerializerRequest : Type := {
  SerializerRequest_method : string;
  SerializerRequest_query_params : list (string * string);
  SerializerRequest_bar : option (option Bar);
}.

(** [QueryDict.get(key, None)]: the last value given for the key. *)
Definition QueryDict_get (key : string) (params : list (string * string)) : option string :=
  last (filter (fun kv => kv.1 = key) params).*2.

(** [StockItem.objects.get(bar=bar, details=itemdetails)]. *)
Inductive stock_result : Type :=
| OneStockItem (s : StockItem)
| NoStockItem               (* [StockItem.DoesNotExist] *)
| SeveralStockItems.        (* [MultipleObjectsReturned] *)

Definition StockItem_get (bar : option Bar) (details : pk) (stock : list StockItem)
  : stock_result :=
  match filter (fun s => Some (StockItem_bar s) = (Bar_id <$> bar)
                         /\ StockItem_details s = details) stock with
  | [] => NoStockItem
  | [s] => OneStockItem s
  | _ :: _ :: _ => SeveralStockItems
  end.

Inductive representation_error : Type :=
| AttributeError        (* no [stockitems] on the object, no [bar] on the request *)
| StockItem_MultipleObjectsReturned.

Section ItemDetailsSerializer.

(** [ModelSerializer.to_representation]: the fields of the model, as the
    framework renders them. *)
Variable super_to_representation : ItemDetails -> gmap string json.

(** [ItemDetailsSerializer.to_representation]; [context_request] is the
    entry ['request'] of the serializer context, if there is one, and
    [stock] the rows of the [StockItem] table. *)
Definition to_representation
    (context_request : option SerializerRequest) (stock : list StockItem)
    (itemdetails : ItemDetails) : representation_error + gmap string json :=
  let obj := super_to_representation itemdetails in
  let otherwise :=
    match context_request with
    | None => inr obj                                       (* [KeyError] *)
    | Some request =>
        match SerializerRequest_bar request with
        | None => inl AttributeError
        | Some bar =>
            match StockItem_get bar (ItemDetails_id itemdetails) stock with
            | OneStockItem stockitem =>
                inr (<["stockitem" := JInt (Z.of_N (StockItem_id stockitem))]> obj)
            | NoStockItem => inr obj
            | SeveralStockItems => inl StockItem_MultipleObjectsReturned
            end
        end
    end in
  match context_request with
  | Some request =>
      if String.eqb (SerializerRequest_method request) "GET" then
        match QueryDict_get "bar" (SerializerRequest_query_params request) with
        | Some _ =>
            match ItemDetails_stockitems itemdetails with
            | None => inl AttributeError
            | Some (first :: _) =>
                inr (<["stockitem" := JInt (Z.of_N (StockItem_id first))]> obj)
            | Some [] => inr (<["stockitem" := JNull]> obj)     (* [IndexError] *)
            end
        | None => inr obj
        end
      else otherwise
  | None => otherwise
  end.

End ItemDetailsSerializer.

(** ** [Account.save] against the database *)

(** The rows that stand in the way of storing [self]: those under another
    key that carry its (bar, owner) pair ([unique_together]). *)
Definition rivals (self : Account) (w : World) : gmap pk Account :=
  filter (fun kr => Some kr.1 <> Account_id self
                    /\ Account_owner kr.2 = Account_owner self
                    /\ Account_bar kr.2 = Account_bar self)
         (account_table w).

(** Another row carries the (bar, owner) pair of [self]. *)
Definition pair_taken (self : Account) (w : World) : Prop :=
  exists j row,
    account_table w !! j = Some row
    /\ Some j <> Account_id self
    /\ Account_owner row = Account_owner self
    /\ Account_bar row = Account_bar self.

Inductive save_outcome : Type :=
| Saved (self : Account) (w : World)
| IntegrityError (w : World).

(** [models.Model.save] with the constraint enforced: the write of
    [Model_save] when no other row carries the pair, [IntegrityError] and
    no write otherwise. *)
Definition Model_save_checked (self : Account) (w : World) : save_outcome :=
  match size (rivals self w) with
  | O =>
      let k := saved_key self w in
      let self' := stored_as k (clock w) self in
      Saved self' (with_accounts (<[k := self']> (account_table w)) w)
  | S _ => IntegrityError w
  end.

(** [Account.save] with the constraint enforced.  The role is looked up or
    created before the row is written, so it is there also when the write
    is refused. *)
Definition Account_save_checked (self : Account) (w : World) : save_outcome :=
  Model_save_checked self
    (if negb (truthy (Account_id self))
     then with_roles ({[ ("customer", Account_bar self, Account_owner self) ]}
                      ∪ role_table w) w
     else w).

(** ** More sample data *)

Definition reject_all : TransactionData -> RequestContext -> World -> bool :=
  fun _ _ _ => false.


(** A new account object of the sample bar, for another owner. *)
Definition newcomer : Account := Account_new 4%N "avironjone".

Definition alice : AuthUser := {|
  AuthUser_username := "alice";
  AuthUser_password := "";
  AuthUser_full_name := "Alice";
  AuthUser_pseudo := "al";
  AuthUser_last_login := 0;
  AuthUser_last_modified := 0;
|}.

Definition beer : ItemDetails := {|
  ItemDetails_id := 12%N;
  ItemDetails_name := "beer";
  ItemDetails_name_plural := "beers";
  ItemDetails_brand := "";
  ItemDetails_container := "bottle";
  ItemDetails_container_plural := "bottles";
  ItemDetails_unit := "cl";
  ItemDetails_unit_plural := "cl";
  ItemDetails_container_qty := 33;
  ItemDetails_ranking_unit := "";
  ItemDetails_ranking_unit_factor := 1;
  ItemDetails_keywords := "";
  ItemDetails_stockitems := Some [];
|}.

Definition name_only (itemdetails : ItemDetails) : gmap string json :=
  {[ "name" := JString (ItemDetails_name itemdetails) ]}.

Definition post_request : SerializerRequest := {|
  SerializerRequest_method := "POST";
  SerializerRequest_query_params := [];
  SerializerRequest_bar := Some (Some avironjone);
|}.

Definition get_request_in_bar : SerializerRequest := {|
  SerializerRequest_method := "GET";
  SerializerRequest_query_params := [("bar", "avironjone")];
  SerializerRequest_bar := Some (Some avironjone);
|}.

(** A new account object for the pair the sample store already holds. *)
Definition double : Account := Account_new 3%N "avironjone".

Definition request_without_bar : SerializerRequest := {|
  SerializerRequest_method := "POST";
  SerializerRequest_query_params := [];
  SerializerRequest_bar := None;
|}.

Definition beer_stock : list StockItem :=
  [ {| StockItem_id := 5%N; StockItem_bar := "avironjone"; StockItem_details := 12%N |};
    {| StockItem_id := 6%N; StockItem_bar := "binet"; StockItem_details := 12%N |} ].

(** * Facts *)

(** ** [timedelta] on sample thresholds *)

Example timedelta_two_days :
  datetime.timedelta_of_days 2 = inr (2 * datetime.us_per_day).
Proof. reflexivity. Qed.

Example timedelta_half_day :
  datetime.timedelta_of_days 0.5 = inr 43200000000.
Proof. reflexivity. Qed.

Example timedelta_neg_day_and_half :
  datetime.timedelta_of_days (-1.5) = inr (-129600000000).
Proof. reflexivity. Qed.

Example timedelta_nan : datetime.timedelta_of_days nan = inl datetime.NaNToInteger.
Proof. reflexivity. Qed.

Example timedelta_too_large :
  datetime.timedelta_of_days 1e10 = inl datetime.DaysOutOfRange.
Proof. reflexivity. Qed.

(** A positive threshold of less than half a microsecond is the zero
    duration; a threshold just above one day is one day. *)
Example timedelta_rounds_to_zero :
  datetime.timedelta_of_days 1e-12 = inr 0.
Proof. reflexivity. Qed.

Example timedelta_rounds_to_one_day :
  datetime.timedelta_of_days 1.000000000004 = inr datetime.us_per_day.
Proof. reflexivity. Qed.

(** ** Comparisons of binary64 numbers with zero *)

Lemma Prim2SF_zero : Prim2SF 0 = S754_zero false.
Proof. reflexivity. Qed.

Ltac float_sign_cases x :=
  rewrite ?FloatAxioms.eqb_spec, ?FloatAxioms.leb_spec, ?FloatAxioms.ltb_spec, ?Prim2SF_zero;
  unfold SFeqb, SFleb, SFltb;
  destruct (Prim2SF x) as [[]|[]| |[] m e]; simpl;
  rewrite ?Z.compare_refl, ?Pos.compare_refl, ?Pos.compare_cont_refl; simpl;
  intros; try split; congruence.

Lemma float_nonneg_not_neg (x : float) :
  (0 <=? x)%float = true -> (x <? 0)%float = false.
Proof. float_sign_cases x. Qed.

Lemma float_neg_not_nonneg (x : float) :
  (x <? 0)%float = true -> (0 <=? x)%float = false.
Proof. float_sign_cases x. Qed.

Lemma float_sign_total (x : float) :
  is_nan x = false -> (0 <=? x)%float = false -> (x <? 0)%float = true.
Proof. unfold is_nan. float_sign_cases x. Qed.

Lemma float_nan_unordered (x : float) :
  is_nan x = true -> (0 <=? x)%float = false /\ (x <? 0)%float = false.
Proof. unfold is_nan. float_sign_cases x. Qed.

(** ** [Account.save] *)

(** X4: saving an object that was loaded from the table writes neither
    [bar] nor [owner], so the uniqueness of the (bar, owner) pair is kept
    and the database has no reason to refuse the write. *)
Lemma Account_save_keeps_unique_together (self row : Account) (k : pk) (w : World) :
  unique_together (account_table w) ->
  Account_id self = Some k ->
  account_table w !! k = Some row ->
  Account_bar row = Account_bar self ->
  Account_owner row = Account_owner self ->
  unique_together (account_table (world_after (Account_save self w))).
Proof.
  intros Huniq Hid Hrow Hbar Howner.
  assert (account_table (world_after (Account_save self w))
          = <[k := stored_as k (clock w) self]> (account_table w)) as ->.
  { unfold Account_save, bind, Model_save, saved_key. rewrite Hid.
    destruct (negb (truthy (Some k))); reflexivity. }
  intros i j a b Ha Hb Hab Hab'.
  destruct (decide (i = k)) as [->|Hi], (decide (j = k)) as [->|Hj]; [reflexivity| | |].
  - rewrite lookup_insert_eq in Ha. injection Ha as <-.
    rewrite lookup_insert_ne in Hb by congruence.
    apply (Huniq k j row b Hrow Hb); cbn in *; congruence.
  - rewrite lookup_insert_eq in Hb. injection Hb as <-.
    rewrite lookup_insert_ne in Ha by congruence.
    apply (Huniq i k a row Ha Hrow); cbn in *; congruence.
  - rewrite lookup_insert_ne in Ha, Hb by congruence.
    exact (Huniq i j a b Ha Hb Hab Hab').
Qed.

(** ** The overdraft engine *)

Section EngineFacts.

Variable get_default_user : World -> User.
Variable is_valid : TransactionData -> RequestContext -> World -> bool.

Abbreviation apply_agios := (Bar_apply_agios get_default_user is_valid).
Abbreviation make_agios := (makeAgiosTransaction get_default_user is_valid).

(** The request [makeAgiosTransaction] builds for a fee. *)
Abbreviation fee_data account amount :=
  {| data_type := "agios"; data_account := Account_id account; data_amount := amount |}.
Abbreviation fee_context self w :=
  {| request_bar := self; request_user := get_default_user w;
     request_user_has_perm := true |}.

(** [Account.save] always returns: the object is stored under its key,
    every other row and every other table is left alone. *)
Lemma Account_save_returns (a : Account) (w : World) :
  let k := saved_key a w in
  let a' := stored_as k (clock w) a in
  exists w',
    Account_save a w = Returns a' w'
    /\ account_table w' = <[k := a']> (account_table w)
    /\ barsettings_table w' = barsettings_table w
    /\ bar_table w' = bar_table w
    /\ transaction_log w' = transaction_log w
    /\ clock w' = clock w.
Proof.
  intros k a'. unfold Account_save, bind.
  destruct (negb (truthy (Account_id a))); simpl;
    unfold Model_save; eexists; (split; [reflexivity|]); simpl;
    repeat split; try reflexivity.
Qed.

Lemma Bar_settings_lookup (self : Bar) (w : World) (settings : BarSettings) :
  barsettings_table w !! Bar_id self = Some settings ->
  Bar_settings self w = Returns settings w.
Proof. intros H. unfold Bar_settings. now rewrite H. Qed.

(** What an accepted fee request does to the store. *)
Lemma makeAgiosTransaction_accepted (self : Bar) (account : Account) (amount : float) (w : World) :
  is_valid (fee_data account amount) (fee_context self w) w = true ->
  exists w',
    make_agios self account amount w = Returns tt w'
    /\ transaction_log w'
       = (fee_data account amount, fee_context self w) :: transaction_log w
    /\ barsettings_table w' = barsettings_table w
    /\ clock w' = clock w.
Proof.
  intros Hv. unfold makeAgiosTransaction, bind, get. rewrite Hv.
  unfold AgiosTransactionSerializer_save, modify. eexists. split; [reflexivity|].
  simpl. repeat split.
Qed.

Lemma makeAgiosTransaction_rejected (self : Bar) (account : Account) (amount : float) (w : World) :
  is_valid (fee_data account amount) (fee_context self w) w = false ->
  make_agios self account amount w = Raises ValidationError w.
Proof.
  intros Hv. unfold makeAgiosTransaction, bind, get. now rewrite Hv.
Qed.

(** C4: on an account whose balance is at least zero and whose
    overdraft-start date is already null, [apply_agios] returns zero and
    leaves the account object and the whole store (hence the transaction
    log) exactly as they were. *)
Theorem apply_agios_nonneg_null_is_noop (self : Bar) (account : Account) (w : World) :
  (0 <=? Account_money account)%float = true ->
  Account_overdrawn_since account = None ->
  apply_agios self account w = Returns (0%float, account) w.
Proof.
  intros Hmoney Hsince. unfold Bar_apply_agios.
  rewrite Hmoney, Hsince, (float_nonneg_not_neg _ Hmoney).
  reflexivity.
Qed.

(** C3: on an account whose overdraft-start date is set and whose balance
    is back to at least zero, [apply_agios] clears the date, stores the
    account (under its key, other rows untouched), adds nothing to the
    transaction log and returns zero. *)
Theorem apply_agios_recovery_clears (self : Bar) (account : Account) (w : World)
    (since : datetime.date) :
  (0 <=? Account_money account)%float = true ->
  Account_overdrawn_since account = Some since ->
  let k := saved_key account w in
  let account' := stored_as k (clock w) (set_overdrawn_since None account) in
  exists w',
    apply_agios self account w = Returns (0%float, account') w'
    /\ Account_overdrawn_since account' = None
    /\ Account_money account' = Account_money account
    /\ account_table w' !! k = Some account'
    /\ (forall j, j <> k -> account_table w' !! j = account_table w !! j)
    /\ transaction_log w' = transaction_log w.
Proof.
  intros Hmoney Hsince k account'. unfold Bar_apply_agios.
  rewrite Hmoney, Hsince. simpl.
  destruct (Account_save_returns (set_overdrawn_since None account) w)
    as (w' & Hsave & Htable & _ & _ & Hlog & _).
  exists w'. unfold bind. rewrite Hsave. fold k account' in Htable |- *.
  repeat split; try assumption.
  - rewrite Htable. apply lookup_insert_eq.
  - intros j Hj. rewrite Htable. now apply lookup_insert_ne.
Qed.

(** The overdrawn branch once the start date is known: what remains is
    the decision about the fee. *)
Lemma apply_agios_overdrawn_since (self : Bar) (account : Account) (w : World)
    (since : datetime.date) (settings : BarSettings) :
  (Account_money account <? 0)%float = true ->
  Account_overdrawn_since account = Some since ->
  barsettings_table w !! Bar_id self = Some settings ->
  apply_agios self account w =
    if BarSettings_agios_enabled settings then
      (threshold <- timedelta (BarSettings_agios_threshold settings) ;;
       if datetime.timedelta_ge (datetime.date_sub (today w) since) threshold then
         let delta := agios_delta (Account_money account)
                                  (BarSettings_agios_factor settings) in
         make_agios self account delta ;;; ret (delta, account)
       else ret (0%float, account)) w
    else Returns (0%float, account) w.
Proof.
  intros Hmoney Hsince Hsettings. unfold Bar_apply_agios.
  rewrite (float_neg_not_nonneg _ Hmoney), Hmoney, Hsince. simpl.
  unfold bind at 1. unfold get. unfold bind at 1. unfold ret at 1.
  unfold bind at 1. rewrite (Bar_settings_lookup _ _ _ Hsettings).
  destruct (BarSettings_agios_enabled settings); [|reflexivity].
  rewrite Hsince. reflexivity.
Qed.

Lemma timedelta_accepts (days : float) (td : datetime.timedelta) (w : World) :
  datetime.timedelta_of_days days = inr td -> timedelta days w = Returns td w.
Proof. intros H. unfold timedelta. now rewrite H. Qed.

(** C1 (amended): on an overdrawn account whose start date is set, in a
    bar that has its settings, the threshold counts as the duration
    [timedelta(agios_threshold)], in whole microseconds.  With accrual
    disabled, or with the elapsed days below that duration, nothing is
    submitted and zero is returned; with accrual enabled and the elapsed
    days at least that duration, the call is the submission of a fee of
    [abs(balance) * agios_factor] followed by the return of that amount,
    and when the serializer accepts the request it is the newest entry of
    the transaction log; with accrual enabled and a threshold [timedelta]
    cannot convert, the call raises ([ValueError] for NaN, [OverflowError]
    otherwise) and returns nothing.  For a balance of -10 and a factor of
    0.05 the fee is 0.5. *)
Theorem apply_agios_fee_decision (self : Bar) (account : Account) (w : World)
    (since : datetime.date) (settings : BarSettings) :
  (Account_money account <? 0)%float = true ->
  Account_overdrawn_since account = Some since ->
  barsettings_table w !! Bar_id self = Some settings ->
  let fee := (abs (Account_money account) * BarSettings_agios_factor settings)%float in
  let elapsed := (today w - since) * 86400000000 in
  (BarSettings_agios_enabled settings = false ->
     apply_agios self account w = Returns (0%float, account) w)
  /\ (forall threshold,
        BarSettings_agios_enabled settings = true ->
        datetime.timedelta_of_days (BarSettings_agios_threshold settings) = inr threshold ->
        elapsed < threshold ->
        apply_agios self account w = Returns (0%float, account) w)
  /\ (forall threshold,
        BarSettings_agios_enabled settings = true ->
        datetime.timedelta_of_days (BarSettings_agios_threshold settings) = inr threshold ->
        threshold <= elapsed ->
        apply_agios self account w
          = (make_agios self account fee ;;; ret (fee, account)) w
        /\ (is_valid (fee_data account fee) (fee_context self w) w = true ->
            exists w',
              apply_agios self account w = Returns (fee, account) w'
              /\ transaction_log w'
                 = (fee_data account fee, fee_context self w) :: transaction_log w))
  /\ (forall err,
        BarSettings_agios_enabled settings = true ->
        datetime.timedelta_of_days (BarSettings_agios_threshold settings) = inl err ->
        apply_agios self account w
        = Raises match err with
                 | datetime.NaNToInteger => ValueError
                 | datetime.InfinityToInteger | datetime.DaysOutOfRange => OverflowError
                 end w)
  /\ (abs (-10) * 0.05)%float = 0.5%float.
Proof.
  intros Hmoney Hsince Hsettings fee elapsed.
  pose proof (apply_agios_overdrawn_since _ _ _ _ _ Hmoney Hsince Hsettings) as Heq.
  assert (datetime.date_sub (today w) since = elapsed) as Helapsed by reflexivity.
  assert (agios_delta (Account_money account) (BarSettings_agios_factor settings) = fee)
    as Hfee by reflexivity.
  rewrite Helapsed, Hfee in Heq.
  split; [|split; [|split; [|split; [|reflexivity]]]].
  - intros Hoff. now rewrite Heq, Hoff.
  - intros threshold Hon Htd Hlt. rewrite Heq, Hon. unfold bind at 1.
    rewrite (timedelta_accepts _ _ _ Htd). unfold datetime.timedelta_ge.
    now replace (threshold <=? elapsed) with false by (symmetry; apply Z.leb_gt; lia).
  - intros threshold Hon Htd Hge.
    assert (apply_agios self account w
            = (make_agios self account fee ;;; ret (fee, account)) w) as Hcharged.
    { rewrite Heq, Hon. unfold bind at 1.
      rewrite (timedelta_accepts _ _ _ Htd). unfold datetime.timedelta_ge.
      now replace (threshold <=? elapsed) with true by (symmetry; apply Z.leb_le; lia). }
    split; [exact Hcharged|]. intros Hvalid.
    destruct (makeAgiosTransaction_accepted self account fee w Hvalid)
      as (w' & Hmake & Hlog & _).
    exists w'. rewrite Hcharged. unfold bind. rewrite Hmake. now split.
  - intros err Hon Htd. rewrite Heq, Hon. unfold bind at 1, timedelta.
    rewrite Htd. now destruct err.
Qed.

(** C5: with accrual enabled and a threshold of 2 days, an account
    overdrawn since day 0 is not charged by the run of day 1 (zero is
    returned, nothing changes) and is charged by the run of day 2: that
    call is the submission of the fee followed by the return of its
    amount. *)
Theorem apply_agios_threshold_two_days (self : Bar) (account : Account) (w : World)
    (day0 : datetime.date) (settings : BarSettings) :
  (Account_money account <? 0)%float = true ->
  Account_overdrawn_since account = Some day0 ->
  barsettings_table w !! Bar_id self = Some settings ->
  BarSettings_agios_enabled settings = true ->
  BarSettings_agios_threshold settings = 2%float ->
  let delta := agios_delta (Account_money account) (BarSettings_agios_factor settings) in
  (today w = day0 + 1 ->
     apply_agios self account w = Returns (0%float, account) w)
  /\ (today w = day0 + 2 ->
       apply_agios self account w
         = (make_agios self account delta ;;; ret (delta, account)) w
       /\ (is_valid (fee_data account delta) (fee_context self w) w = true ->
           exists w',
             apply_agios self account w = Returns (delta, account) w'
             /\ transaction_log w'
                = (fee_data account delta, fee_context self w) :: transaction_log w)).
Proof.
  intros Hmoney Hsince Hsettings Hon Htwo delta.
  pose proof (apply_agios_overdrawn_since _ _ _ _ _ Hmoney Hsince Hsettings) as Heq.
  rewrite Hon in Heq. unfold bind at 1 in Heq.
  rewrite (timedelta_accepts _ (2 * datetime.us_per_day)) in Heq
    by (rewrite Htwo; reflexivity).
  split; intros Hday; rewrite Hday in Heq.
  - replace (datetime.timedelta_ge (datetime.date_sub (day0 + 1) day0)
                                   (2 * datetime.us_per_day))
      with false in Heq; [exact Heq|].
    symmetry. unfold datetime.timedelta_ge, datetime.date_sub, datetime.us_per_day.
    apply Z.leb_gt. lia.
  - replace (datetime.timedelta_ge (datetime.date_sub (day0 + 2) day0)
                                   (2 * datetime.us_per_day))
      with true in Heq
      by (symmetry; unfold datetime.timedelta_ge, datetime.date_sub, datetime.us_per_day;
          apply Z.leb_le; lia).
    split; [exact Heq|]. intros Hvalid.
    destruct (makeAgiosTransaction_accepted self account delta w Hvalid)
      as (w' & Hmake & Hlog & _).
    exists w'. rewrite Heq. cbv zeta. fold delta. unfold bind. rewrite Hmake.
    now split.
Qed.

(** The overdrawn branch when the start date is still unset: the date
    becomes today, the account is stored, and the decision about the fee
    is taken with zero elapsed days. *)
Lemma apply_agios_overdrawn_unset (self : Bar) (account : Account) (w : World)
    (settings : BarSettings) :
  (Account_money account <? 0)%float = true ->
  Account_overdrawn_since account = None ->
  barsettings_table w !! Bar_id self = Some settings ->
  let k := saved_key account w in
  let account' := stored_as k (clock w) (set_overdrawn_since (Some (today w)) account) in
  exists w1,
    Account_save (set_overdrawn_since (Some (today w)) account) w = Returns account' w1
    /\ account_table w1 = <[k := account']> (account_table w)
    /\ transaction_log w1 = transaction_log w
    /\ apply_agios self account w =
         if BarSettings_agios_enabled settings then
           (threshold <- timedelta (BarSettings_agios_threshold settings) ;;
            if datetime.timedelta_ge 0 threshold then
              let delta := agios_delta (Account_money account)
                                       (BarSettings_agios_factor settings) in
              make_agios self account' delta ;;; ret (delta, account')
            else ret (0%float, account')) w1
         else Returns (0%float, account') w1.
Proof.
  intros Hmoney Hsince Hsettings k account'.
  destruct (Account_save_returns (set_overdrawn_since (Some (today w)) account) w)
    as (w1 & Hsave & Htable & Hbs & _ & Hlog & _).
  exists w1. repeat split; try assumption.
  unfold Bar_apply_agios.
  rewrite (float_neg_not_nonneg _ Hmoney), Hmoney, Hsince. simpl.
  unfold bind at 1. unfold get. unfold bind at 1. rewrite Hsave.
  unfold bind at 1. rewrite <- Hbs in Hsettings.
  rewrite (Bar_settings_lookup _ _ _ Hsettings).
  destruct (BarSettings_agios_enabled settings); [|reflexivity].
  unfold bind at 1. simpl. unfold ret at 1.
  replace (datetime.date_sub (today w) (today w)) with 0
    by (unfold datetime.date_sub; lia).
  reflexivity.
Qed.


(** Every way in which [apply_agios] can return: either no fee was due,
    the log is as before and zero is returned, or a fee was charged on an
    overdrawn account whose start date (today if it was unset) is at
    least the threshold old. *)
Lemma apply_agios_returns_inv (self : Bar) (account account' : Account) (w w' : World)
    (r : float) :
  apply_agios self account w = Returns (r, account') w' ->
  let since' :=
    if (0 <=? Account_money account)%float then None
    else if (Account_money account <? 0)%float
         then Some (default (today w) (Account_overdrawn_since account))
         else Account_overdrawn_since account in
  Account_overdrawn_since account' = since'
  /\ ((r = 0%float /\ transaction_log w' = transaction_log w)
      \/ (exists settings threshold since entry,
            (Account_money account <? 0)%float = true
            /\ barsettings_table w !! Bar_id self = Some settings
            /\ BarSettings_agios_enabled settings = true
            /\ datetime.timedelta_of_days (BarSettings_agios_threshold settings)
               = inr threshold
            /\ since' = Some since
            /\ datetime.timedelta_ge (datetime.date_sub (today w) since) threshold = true
            /\ transaction_log w' = entry :: transaction_log w)).
Proof.
  intros Hret since'. subst since'.
  destruct (0 <=? Account_money account)%float eqn:Hnonneg.
  - unfold Bar_apply_agios in Hret.
    rewrite Hnonneg, (float_nonneg_not_neg _ Hnonneg) in Hret.
    destruct (Account_overdrawn_since account) as [since|] eqn:Hsince; simpl in Hret.
    + destruct (Account_save_returns (set_overdrawn_since None account) w)
        as (w1 & Hsave & _ & _ & _ & Hlog & _).
      unfold bind in Hret. rewrite Hsave in Hret. injection Hret as <- <- <-.
      split; [reflexivity|]. left. now split.
    + injection Hret as <- <- <-. split; [assumption|]. left. now split.
  - destruct (Account_money account <? 0)%float eqn:Hneg.
    2:{ unfold Bar_apply_agios in Hret. rewrite Hnonneg, Hneg in Hret.
        injection Hret as <- <- <-. split; [reflexivity|]. left. now split. }
    destruct (barsettings_table w !! Bar_id self) as [settings|] eqn:Hsettings.
    2:{ exfalso. unfold Bar_apply_agios in Hret. rewrite Hnonneg, Hneg in Hret.
        simpl in Hret. unfold bind, get in Hret.
        destruct (Account_overdrawn_since account).
        - unfold ret, Bar_settings in Hret. now rewrite Hsettings in Hret.
        - destruct (Account_save_returns
                      (set_overdrawn_since (Some (today w)) account) w)
            as (w1 & Hsave & _ & Hbs & _).
          rewrite Hsave in Hret. unfold Bar_settings in Hret.
          now rewrite Hbs, Hsettings in Hret. }
    assert (exists a1 w1,
               Account_overdrawn_since a1
               = Some (default (today w) (Account_overdrawn_since account))
               /\ transaction_log w1 = transaction_log w
               /\ (if BarSettings_agios_enabled settings then
                     (threshold <- timedelta (BarSettings_agios_threshold settings) ;;
                      if datetime.timedelta_ge
                           (datetime.date_sub (today w)
                              (default (today w) (Account_overdrawn_since account)))
                           threshold
                      then
                        let delta := agios_delta (Account_money account)
                                                 (BarSettings_agios_factor settings) in
                        make_agios self a1 delta ;;; ret (delta, a1)
                      else ret (0%float, a1)) w1
                   else Returns (0%float, a1) w1) = Returns (r, account') w')
      as (a1 & w1 & Ha1 & Hlog1 & Hrest).
    { destruct (Account_overdrawn_since account) as [since|] eqn:Hsince.
      - exists account, w. split; [exact Hsince|]. split; [reflexivity|].
        rewrite <- Hret. symmetry.
        now apply apply_agios_overdrawn_since.
      - destruct (apply_agios_overdrawn_unset self account w settings Hneg Hsince Hsettings)
          as (w1 & _ & _ & Hlog & Heq).
        exists (stored_as (saved_key account w) (clock w)
                  (set_overdrawn_since (Some (today w)) account)), w1.
        split; [reflexivity|]. split; [exact Hlog|].
        rewrite <- Hret, Heq. simpl.
        replace (datetime.date_sub (today w) (today w)) with 0
          by (unfold datetime.date_sub; lia).
        reflexivity. }
    clear Hret.
    destruct (BarSettings_agios_enabled settings) eqn:Hon.
    2:{ injection Hrest as <- <- <-. split; [assumption|]. left. now split. }
    unfold bind at 1 in Hrest. unfold timedelta in Hrest.
    destruct (datetime.timedelta_of_days (BarSettings_agios_threshold settings))
      as [[]|threshold] eqn:Htd; try discriminate Hrest.
    unfold ret at 1 in Hrest.
    destruct (datetime.timedelta_ge _ threshold) eqn:Hge.
    2:{ injection Hrest as <- <- <-. split; [assumption|]. left. now split. }
    simpl in Hrest. unfold bind at 1 in Hrest.
    destruct (is_valid (fee_data a1 (agios_delta (Account_money account)
                                       (BarSettings_agios_factor settings)))
                       (fee_context self w1) w1) eqn:Hvalid.
    + destruct (makeAgiosTransaction_accepted self a1 _ w1 Hvalid)
        as (w2 & Hmake & Hlog2 & _).
      rewrite Hmake in Hrest. injection Hrest as <- <- <-.
      split; [assumption|]. right.
      eexists settings, threshold, _, _.
      repeat split; try eassumption; try reflexivity.
      now rewrite Hlog2, Hlog1.
    + now rewrite (makeAgiosTransaction_rejected self a1 _ w1 Hvalid) in Hrest.
Qed.

Lemma cons_not_self {A} (x : A) (l : list A) : l <> x :: l.
Proof. intros H. apply (f_equal length) in H. simpl in H. lia. Qed.

(** C6 (amended): when [apply_agios] charges a fee (the call returns with
    one more entry in the transaction log), the start date after the call
    is the date the account had on entry; if the account had none, it is
    today, set by that same call before the fee, and this happens only
    with accrual enabled and a threshold that [timedelta] converts to a
    duration of zero or less (0, a negative threshold, or a positive
    one of less than half a microsecond).  Charging does not move the date, so any later run that
    finds the same date, the same settings and a negative balance charges
    [abs(balance) * agios_factor] again. *)
Theorem apply_agios_fee_keeps_start_date (self : Bar) (account account' : Account)
    (w w' : World) (r : float) (entry : TransactionData * RequestContext) :
  apply_agios self account w = Returns (r, account') w' ->
  transaction_log w' = entry :: transaction_log w ->
  Account_overdrawn_since account'
    = Some (default (today w) (Account_overdrawn_since account))
  /\ (forall since,
        Account_overdrawn_since account = Some since ->
        Account_overdrawn_since account' = Account_overdrawn_since account)
  /\ (exists settings threshold,
        barsettings_table w !! Bar_id self = Some settings
        /\ BarSettings_agios_enabled settings = true
        /\ datetime.timedelta_of_days (BarSettings_agios_threshold settings)
           = inr threshold
        /\ (Account_overdrawn_since account = None -> threshold <= 0)
        /\ forall (later : Account) (w2 : World),
             (Account_money later <? 0)%float = true ->
             Account_overdrawn_since later = Account_overdrawn_since account' ->
             barsettings_table w2 !! Bar_id self = Some settings ->
             today w <= today w2 ->
             let fee := (abs (Account_money later)
                         * BarSettings_agios_factor settings)%float in
             apply_agios self later w2
               = (make_agios self later fee ;;; ret (fee, later)) w2).
Proof.
  intros Hret Hlog.
  destruct (apply_agios_returns_inv _ _ _ _ _ _ Hret) as (Hsince' & [[_ Hsame]|Hfee]).
  { rewrite Hsame in Hlog. now apply cons_not_self in Hlog. }
  destruct Hfee as (settings & threshold & since & _ & Hneg & Hsettings & Hon & Htd
                    & Hsome & Hge & _).
  rewrite (float_neg_not_nonneg _ Hneg), Hneg in Hsince', Hsome.
  injection Hsome as Hsome.
  unfold datetime.timedelta_ge, datetime.date_sub, datetime.us_per_day in Hge.
  apply Z.leb_le in Hge.
  split; [exact Hsince'|]. split.
  - intros d Hd. now rewrite Hsince', Hd.
  - exists settings, threshold.
    split; [exact Hsettings|]. split; [exact Hon|]. split; [exact Htd|]. split.
    + intros Hunset. rewrite Hunset in Hsome. cbn in Hsome. subst since. lia.
    + intros later w2 Hneg2 Hsince2 Hsettings2 Hlater fee.
      rewrite Hsince', Hsome in Hsince2.
      rewrite (apply_agios_overdrawn_since _ _ _ _ _ Hneg2 Hsince2 Hsettings2), Hon.
      unfold bind at 1. rewrite (timedelta_accepts _ _ _ Htd).
      replace (datetime.timedelta_ge (datetime.date_sub (today w2) since) threshold)
        with true; [reflexivity|].
      symmetry. unfold datetime.timedelta_ge, datetime.date_sub, datetime.us_per_day.
      apply Z.leb_le. lia.
Qed.

(** C9 (amended): for a balance that is a number (not NaN), whenever
    [apply_agios] returns, the start date of the account object is null
    exactly when the balance on entry was at least zero. *)
Theorem apply_agios_start_date_null_iff_nonneg (self : Bar) (account account' : Account)
    (w w' : World) (r : float) :
  is_nan (Account_money account) = false ->
  apply_agios self account w = Returns (r, account') w' ->
  Account_overdrawn_since account' = None
  <-> (0 <=? Account_money account)%float = true.
Proof.
  intros Hnum Hret.
  destruct (apply_agios_returns_inv _ _ _ _ _ _ Hret) as (Hsince' & _).
  rewrite Hsince'.
  destruct (0 <=? Account_money account)%float eqn:Hnonneg; [tauto|].
  rewrite (float_sign_total _ Hnum Hnonneg). split; discriminate.
Qed.

End EngineFacts.


(** ** [Bar.save] and the settings companion *)

(** C8: [Bar.save] always returns; afterwards the bar is stored and a
    settings row keyed by it exists.  The operation preserves the invariant
    that every stored bar has its settings, touches the settings of no
    other bar, creates the row with the field defaults when it was missing
    and leaves the settings table exactly as it was when the row was
    already there, so saving an existing bar never adds a second row. *)
Theorem Bar_save_keeps_companion (self : Bar) (w : World) :
  exists w',
    Bar_save self w = Returns tt w'
    /\ bar_table w' !! Bar_id self = Some self
    /\ is_Some (barsettings_table w' !! Bar_id self)
    /\ (has_companions w -> has_companions w')
    /\ (forall id, id <> Bar_id self ->
          barsettings_table w' !! id = barsettings_table w !! id)
    /\ (barsettings_table w !! Bar_id self = None ->
          barsettings_table w'
          = <[Bar_id self := BarSettings_defaults (clock w)]> (barsettings_table w))
    /\ (is_Some (barsettings_table w !! Bar_id self) ->
          barsettings_table w' = barsettings_table w)
    /\ (has_companions w -> is_Some (bar_table w !! Bar_id self) ->
          size (barsettings_table w') = size (barsettings_table w))
    /\ account_table w' = account_table w
    /\ transaction_log w' = transaction_log w.
Proof.
  unfold Bar_save, bind, modify, BarSettings_get_or_create, ret, has_companions.
  cbn [barsettings_table bar_table with_bars clock].
  destruct (barsettings_table w !! Bar_id self) as [s|] eqn:Hs.
  - eexists. split; [reflexivity|]. cbn.
    split; [apply lookup_insert_eq|]. split; [rewrite Hs; eauto|].
    split.
    { intros Hinv id. destruct (decide (id = Bar_id self)) as [->|Hne].
      - intros _. rewrite Hs. eauto.
      - rewrite lookup_insert_ne by congruence. apply Hinv. }
    repeat split; try reflexivity. intros Hnone. congruence.
  - eexists. split; [reflexivity|]. cbn.
    split; [apply lookup_insert_eq|]. split; [rewrite lookup_insert_eq; eauto|].
    split.
    { intros Hinv id. destruct (decide (id = Bar_id self)) as [->|Hne].
      - intros _. rewrite lookup_insert_eq. eauto.
      - rewrite !lookup_insert_ne by congruence. apply Hinv. }
    split; [intros id Hne; now rewrite lookup_insert_ne by congruence|].
    split; [reflexivity|].
    split; [intros [s Hsome]; congruence|].
    split; [|now split].
    intros Hinv Hbar. apply Hinv in Hbar. destruct Hbar as [s Hsome]. congruence.
Qed.

(** ** [AccountViewSet.ranking] *)

Section StatsFacts.

Variable ranking_within : Bar -> Request -> World -> Ranking.

(** C7: a ranking request that carries no bar is answered by the
    bad-request response "I can only give a ranking within a bar" (status
    400); the answer is never a ranking, empty or not, with any status. *)
Theorem ranking_without_bar_is_refused (request : Request) (w : World) :
  Request_bar request = None ->
  AccountViewSet_ranking ranking_within request w
    = HttpResponseBadRequest "I can only give a ranking within a bar"
  /\ status_code (AccountViewSet_ranking ranking_within request w) = 400
  /\ forall (data : Ranking) (status : Z),
       AccountViewSet_ranking ranking_within request w <> Response data status.
Proof.
  intros Hbar. unfold AccountViewSet_ranking, compute_account_ranking.
  rewrite Hbar. repeat split. intros data status. discriminate.
Qed.

(** Within a bar the answer is the ranking of that bar, with status 200. *)
Lemma ranking_within_bar (request : Request) (bar : Bar) (w : World) :
  Request_bar request = Some bar ->
  AccountViewSet_ranking ranking_within request w
    = Response (ranking_within bar request w) 200.
Proof.
  intros Hbar. unfold AccountViewSet_ranking, compute_account_ranking.
  now rewrite Hbar.
Qed.

End StatsFacts.

(** ** [Bar.count_accounts] *)

Lemma size_filter_rows (P : pk * Account -> Prop) `{!forall x, Decision (P x)}
    (Q : Account -> Prop) `{!forall a, Decision (Q a)} (m : gmap pk Account) :
  (forall k a, P (k, a) <-> Q a) ->
  size (filter P m) = length (filter Q (map_to_list m).*2).
Proof.
  intros HPQ. induction m as [|k a m Hfresh IH] using map_ind.
  - now rewrite map_filter_empty, map_size_empty, map_to_list_empty.
  - rewrite (map_to_list_insert m k a Hfresh), fmap_cons. cbn [snd].
    rewrite map_filter_insert. destruct (decide (P (k, a))) as [HP|HP].
    + rewrite map_size_insert_None by (apply map_lookup_filter_None_2; now left).
      rewrite filter_cons_True by (now apply (HPQ k a)). cbn [length]. now rewrite IH.
    + rewrite delete_id by assumption.
      rewrite filter_cons_False by (now rewrite <- (HPQ k a)). exact IH.
Qed.

(** C10: [count_accounts] is the number of rows of the account table that
    belong to the bar and whose soft-delete flag is off.  A row is among
    the counted ones exactly when it is stored, belongs to the bar and is
    not soft-deleted; removing a soft-deleted row changes nothing, and
    soft-deleting a counted account lowers the count by one. *)
Theorem count_accounts_counts_active_rows (self : Bar) (w : World) :
  Bar_count_accounts self w = length (active_accounts self w)
  /\ (forall a,
        a ∈ active_accounts self w
        <-> exists k, account_table w !! k = Some a
                      /\ Account_bar a = Bar_id self /\ Account_deleted a = false)
  /\ (forall k a,
        account_table w !! k = Some a ->
        Account_deleted a = true ->
        Bar_count_accounts self (with_accounts (delete k (account_table w)) w)
        = Bar_count_accounts self w)
  /\ (forall k a,
        account_table w !! k = Some a ->
        Account_bar a = Bar_id self ->
        Account_deleted a = false ->
        Bar_count_accounts self w
        = S (Bar_count_accounts self
               (with_accounts (<[k := set_deleted true a]> (account_table w)) w))).
Proof.
  unfold Bar_count_accounts, count, filter_deleted, Bar_account_set, active_accounts.
  cbn [account_table with_accounts].
  split; [|split; [|split]].
  - rewrite map_filter_filter.
    apply size_filter_rows. intros k a. unfold is_active_account_of. cbn. tauto.
  - intros a. rewrite list_elem_of_filter, list_elem_of_fmap.
    unfold is_active_account_of. split.
    + intros ((Hbar & Hdel) & ([k a'] & -> & Hrow)).
      exists k. split; [now apply elem_of_map_to_list|]. now split.
    + intros (k & Hrow & Hbar & Hdel). split; [now split|].
      exists (k, a). split; [reflexivity|]. now apply elem_of_map_to_list.
  - intros k a Hrow Hdel. rewrite !map_filter_filter.
    rewrite map_filter_delete. f_equal. apply delete_id.
    apply map_lookup_filter_None_2. right. intros a' Ha'.
    rewrite Hrow in Ha'. injection Ha' as <-. cbn. rewrite Hdel. intros [? _]. discriminate.
  - intros k a Hrow Hbar Hdel. rewrite !map_filter_filter.
    rewrite <- (insert_delete_id (account_table w) k a Hrow) at 1.
    rewrite map_filter_insert_True by (cbn; now split).
    rewrite map_size_insert_None
      by (apply map_lookup_filter_None_2; left; apply lookup_delete_eq).
    rewrite map_filter_insert_False by (cbn; intros [? _]; discriminate).
    reflexivity.
Qed.

(** * The theorems at work on the sample store

    Day 735000 is 2013-05-08. *)

Lemma apply_agios_fee_decision_witness :
  let account := account7 (-10) (Some 735000) in
  let w := world_on 735002 (settings_with true 2 0.05) account in
  exists w',
    Bar_apply_agios the_bot accept_all avironjone account w
      = Returns (0.5%float, account) w'
    /\ transaction_log w' = [fee_entry 0.5].
Proof.
  intros account w.
  destruct (apply_agios_fee_decision the_bot accept_all avironjone account w
              735000 (settings_with true 2 0.05) eq_refl eq_refl eq_refl)
    as (_ & _ & Hcharged & _).
  destruct (Hcharged (2 * datetime.us_per_day) eq_refl eq_refl) as [_ Hvalid];
    [vm_compute; discriminate|].
  exact (Hvalid eq_refl).
Defined.


Lemma apply_agios_recovery_clears_witness :
  let account := account7 5 (Some 735000) in
  let w := world_on 735003 (settings_with true 2 0.05) account in
  exists w',
    Bar_apply_agios the_bot accept_all avironjone account w
      = Returns (0%float, stored_as 7%N (clock w) (account7 5 None)) w'
    /\ account_table w' !! 7%N = Some (stored_as 7%N (clock w) (account7 5 None))
    /\ transaction_log w' = [].
Proof.
  intros account w.
  destruct (apply_agios_recovery_clears the_bot accept_all avironjone account w
              735000 eq_refl eq_refl)
    as (w' & Hreturns & _ & _ & Hstored & _ & Hlog).
  exists w'. split; [exact Hreturns|]. split; [exact Hstored|exact Hlog].
Defined.

Lemma apply_agios_nonneg_null_is_noop_witness :
  let account := account7 5 None in
  let w := world_on 735003 (settings_with true 2 0.05) account in
  Bar_apply_agios the_bot accept_all avironjone account w = Returns (0%float, account) w.
Proof.
  intros account w.
  exact (apply_agios_nonneg_null_is_noop the_bot accept_all avironjone account w
           eq_refl eq_refl).
Defined.

Lemma apply_agios_threshold_two_days_witness :
  let account := account7 (-10) (Some 735000) in
  let settings := settings_with true 2 0.05 in
  Bar_apply_agios the_bot accept_all avironjone account (world_on 735001 settings account)
    = Returns (0%float, account) (world_on 735001 settings account)
  /\ exists w',
       Bar_apply_agios the_bot accept_all avironjone account
                       (world_on 735002 settings account)
         = Returns (0.5%float, account) w'
       /\ transaction_log w' = [fee_entry 0.5].
Proof.
  intros account settings. split.
  - destruct (apply_agios_threshold_two_days the_bot accept_all avironjone account
                (world_on 735001 settings account) 735000 settings
                eq_refl eq_refl eq_refl eq_refl eq_refl) as [Hday1 _].
    exact (Hday1 eq_refl).
  - destruct (apply_agios_threshold_two_days the_bot accept_all avironjone account
                (world_on 735002 settings account) 735000 settings
                eq_refl eq_refl eq_refl eq_refl eq_refl) as [_ Hday2].
    destruct (Hday2 eq_refl) as [_ Hvalid]. exact (Hvalid eq_refl).
Defined.

Lemma apply_agios_fee_keeps_start_date_witness :
  let account := account7 (-10) (Some 735000) in
  let w := world_on 735002 (settings_with true 2 0.05) account in
  Account_overdrawn_since account = Some 735000
  /\ Bar_apply_agios the_bot accept_all avironjone account w
     = Returns (0.5%float, account)
               (world_after (Bar_apply_agios the_bot accept_all avironjone account w))
  /\ Account_overdrawn_since account
     = Some (default (today w) (Account_overdrawn_since account)).
Proof.
  intros account w.
  assert (Bar_apply_agios the_bot accept_all avironjone account w
          = Returns (0.5%float, account)
                    (world_after (Bar_apply_agios the_bot accept_all avironjone account w)))
    as Hreturns by (vm_compute; reflexivity).
  split; [reflexivity|]. split; [exact Hreturns|].
  destruct (apply_agios_fee_keeps_start_date the_bot accept_all avironjone
              account account w _ 0.5 (fee_entry 0.5) Hreturns)
    as (Hkept & _); [vm_compute; reflexivity|exact Hkept].
Defined.

Lemma apply_agios_start_date_null_iff_nonneg_witness :
  let account := account7 (-10) None in
  let w := world_on 735000 (settings_with true 2 0.05) account in
  let account' := stored_as 7%N (clock w) (account7 (-10) (Some 735000)) in
  Bar_apply_agios the_bot accept_all avironjone account w
    = Returns (0%float, account')
              (world_after (Bar_apply_agios the_bot accept_all avironjone account w))
  /\ (Account_overdrawn_since account' = None
      <-> (0 <=? Account_money account)%float = true).
Proof.
  intros account w account'.
  assert (Bar_apply_agios the_bot accept_all avironjone account w
          = Returns (0%float, account')
                    (world_after (Bar_apply_agios the_bot accept_all avironjone account w)))
    as Hreturns by (vm_compute; reflexivity).
  split; [exact Hreturns|].
  exact (apply_agios_start_date_null_iff_nonneg the_bot accept_all avironjone
           account account' w _ 0 eq_refl Hreturns).
Defined.

Lemma ranking_without_bar_is_refused_witness :
  AccountViewSet_ranking no_ranking anonymous_request
                         (world_on 735000 (settings_with true 2 0.05) (account7 0 None))
  = HttpResponseBadRequest "I can only give a ranking within a bar".
Proof.
  destruct (ranking_without_bar_is_refused no_ranking anonymous_request
              (world_on 735000 (settings_with true 2 0.05) (account7 0 None)) eq_refl)
    as [Hrefused _].
  exact Hrefused.
Defined.

(** The scenario of the default settings: balance -10, factor 0.05,
    threshold met.  The fee is 0.5, the stored balance becomes -10.5 and the
    stored start date is still the one of day 735000. *)
Example agios_scenario :
  let account := account7 (-10) (Some 735000) in
  let w := world_on 735002 (BarSettings_defaults 0) account in
  let w' := world_after (Bar_apply_agios the_bot accept_all avironjone account w) in
  (Account_money <$> account_table w' !! 7%N) = Some (-10.5)%float
  /\ (Account_overdrawn_since <$> account_table w' !! 7%N) = Some (Some 735000).
Proof. split; vm_compute; reflexivity. Qed.

(** ** Corner cases of the fall-through and of NaN *)


(** The threshold is compared as [timedelta] converts it.  Two elapsed
    days are below a threshold of 1e10 days, yet the call does not return
    zero: the conversion overflows and the call raises.  One elapsed day is
    below a threshold of 1.000000000004 days, yet the fee is charged: the
    conversion rounds the threshold to one day. *)
Lemma apply_agios_threshold_is_converted :
  let account := account7 (-10) (Some 735000) in
  let far := world_on 735002 (settings_with true 1e10 0.05) account in
  let near := world_on 735001 (settings_with true 1.000000000004 0.05) account in
  (2 <? 1e10)%float = true
  /\ Bar_apply_agios the_bot accept_all avironjone account far = Raises OverflowError far
  /\ (1 <? 1.000000000004)%float = true
  /\ exists w',
       Bar_apply_agios the_bot accept_all avironjone account near
         = Returns (0.5%float, account) w'
       /\ transaction_log near = []
       /\ transaction_log w' = [fee_entry 0.5].
Proof.
  intros account far near. repeat split.
  eexists. split; [vm_compute; reflexivity|]. split; reflexivity.
Qed.


(** In that same call the fee branch is taken although the start date
    differs before (null) and after (today). *)
Lemma apply_agios_fee_with_fresh_start_date :
  let account := account7 (-10) None in
  let w := world_on 735000 (settings_with true 0 0.05) account in
  exists account' w',
    Bar_apply_agios the_bot accept_all avironjone account w
      = Returns (0.5%float, account') w'
    /\ transaction_log w' = fee_entry 0.5 :: transaction_log w
    /\ Account_overdrawn_since account' = Some 735000
    /\ Account_overdrawn_since account' <> Account_overdrawn_since account.
Proof.
  intros account w.
  eexists _, _. split; [vm_compute; reflexivity|].
  split; [reflexivity|]. split; [reflexivity|]. discriminate.
Qed.

(** A NaN balance is neither at least zero nor negative: the call returns
    with the start date still null although the balance is not [>= 0]. *)
Lemma apply_agios_nan_balance_keeps_null :
  let account := account7 nan None in
  let w := world_on 735000 (settings_with true 2 0.05) account in
  Bar_apply_agios the_bot accept_all avironjone account w = Returns (0%float, account) w
  /\ Account_overdrawn_since account = None
  /\ (0 <=? Account_money account)%float = false
  /\ ~ (Account_overdrawn_since account = None
        <-> (0 <=? Account_money account)%float = true).
Proof.
  intros account w. repeat split.
  intros [Hnull _]. specialize (Hnull eq_refl). discriminate Hnull.
Qed.

(** * More of [Account.save] *)

(** The store [Account.save] leaves, in one equation. *)
Lemma Account_save_eq (a : Account) (w : World) :
  let k := saved_key a w in
  let w0 := if truthy (Account_id a) then w
            else with_roles ({[ ("customer", Account_bar a, Account_owner a) ]}
                             ∪ role_table w) w in
  Account_save a w
  = Returns (stored_as k (clock w) a)
            (with_accounts (<[k := stored_as k (clock w) a]> (account_table w)) w0).
Proof.
  unfold Account_save, bind, Model_save, Role_get_or_create, modify, ret.
  destruct (truthy (Account_id a)); reflexivity.
Qed.

Lemma saved_key_fresh (a : Account) (w : World) :
  Account_id a = None -> account_table w !! saved_key a w = None.
Proof.
  intros Hid. unfold saved_key. rewrite Hid.
  apply not_elem_of_dom.
  pose proof (is_fresh ({[ 0%N ]} ∪ dom (account_table w))) as Hfresh.
  set_solver.
Qed.

Lemma saved_key_nonzero (a : Account) (w : World) :
  Account_id a = None -> saved_key a w <> 0%N.
Proof.
  intros Hid. unfold saved_key. rewrite Hid.
  pose proof (is_fresh ({[ 0%N ]} ∪ dom (account_table w))) as Hfresh.
  set_solver.
Qed.

Lemma rivals_empty_iff (a : Account) (w : World) :
  rivals a w = ∅ <-> ~ pair_taken a w.
Proof.
  unfold rivals, pair_taken. rewrite map_empty. split.
  - intros Hnone (j & row & Hrow & Hj & Ho & Hb).
    specialize (Hnone j). apply map_lookup_filter_None in Hnone as [Hnone|Hnone].
    + congruence.
    + apply (Hnone row Hrow). cbn. now repeat split.
  - intros Hfree j. apply map_lookup_filter_None_2. right.
    intros row Hrow (Hj & Ho & Hb). apply Hfree. exists j, row. now repeat split.
Qed.

Lemma rivals_after_role (a : Account) (w : World) (roles : gset Role) (b : bool) :
  rivals a (if b then with_roles roles w else w) = rivals a w.
Proof. now destruct b. Qed.

(** A save the database accepts is the write of [Account.save]. *)
Lemma Account_save_checked_accepted (a : Account) (w : World) :
  ~ pair_taken a w ->
  Account_save_checked a w
  = Saved (value_or a (Account_save a w)) (world_after (Account_save a w)).
Proof.
  intros Hfree. apply rivals_empty_iff in Hfree.
  unfold Account_save_checked, Model_save_checked.
  rewrite rivals_after_role, Hfree, map_size_empty, Account_save_eq.
  cbn [value_or world_after]. unfold saved_key.
  now destruct (truthy (Account_id a)).
Qed.

(** A save the database refuses writes no row. *)
Lemma Account_save_checked_refused (a : Account) (w : World) :
  pair_taken a w ->
  exists w',
    Account_save_checked a w = IntegrityError w'
    /\ account_table w' = account_table w
    /\ bar_table w' = bar_table w
    /\ barsettings_table w' = barsettings_table w
    /\ transaction_log w' = transaction_log w.
Proof.
  intros Htaken.
  assert (size (rivals a w) <> 0)%nat as Hsize.
  { rewrite map_size_empty_iff, rivals_empty_iff. tauto. }
  unfold Account_save_checked, Model_save_checked. rewrite rivals_after_role.
  destruct (size (rivals a w)); [contradiction|].
  eexists. split; [reflexivity|]. now destruct (truthy (Account_id a)).
Qed.

(** An object loaded from a table without duplicate pairs, with [bar] and
    [owner] as loaded, has no rival: its save is an update the database
    accepts. *)
Lemma stored_account_pair_free (a row : Account) (k : pk) (w : World) :
  unique_together (account_table w) ->
  Account_id a = Some k ->
  account_table w !! k = Some row ->
  Account_bar row = Account_bar a ->
  Account_owner row = Account_owner a ->
  ~ pair_taken a w.
Proof.
  intros Huniq Hid Hrow Hbar Howner (j & r & Hr & Hj & Ho & Hb).
  apply Hj. rewrite Hid. f_equal.
  apply (Huniq j k r row Hr Hrow); congruence.
Qed.

(** So are the two saves of [apply_agios], which write the start date of
    a loaded account and nothing else. *)
Lemma stored_account_date_save_accepted
    (a row : Account) (k : pk) (d : option datetime.date) (w : World) :
  unique_together (account_table w) ->
  Account_id a = Some k ->
  account_table w !! k = Some row ->
  Account_bar row = Account_bar a ->
  Account_owner row = Account_owner a ->
  Account_save_checked (set_overdrawn_since d a) w
  = Saved (value_or (set_overdrawn_since d a) (Account_save (set_overdrawn_since d a) w))
          (world_after (Account_save (set_overdrawn_since d a) w)).
Proof.
  intros Huniq Hid Hrow Hbar Howner. apply Account_save_checked_accepted.
  exact (stored_account_pair_free (set_overdrawn_since d a) row k w
           Huniq Hid Hrow Hbar Howner).
Qed.

(** X1: saving an account object that has no key yet.  When no stored row
    carries its (bar, owner) pair the object is inserted: it is stored
    under a key the table did not use (never 0), it learns that key, every
    row that was there is still there unchanged, the table has one row
    more, and the owner holds the "customer" role of the bar afterwards
    (roles already granted are kept).  When a stored row carries the pair
    the save is refused with [IntegrityError] and the account table is as
    it was. *)
Theorem Account_save_inserts_new_account (a : Account) (w : World) :
  Account_id a = None ->
  (~ pair_taken a w ->
     exists k w',
       Account_save_checked a w = Saved (stored_as k (clock w) a) w'
       /\ k <> 0%N
       /\ account_table w !! k = None
       /\ account_table w' !! k = Some (stored_as k (clock w) a)
       /\ (forall j row, account_table w !! j = Some row ->
                         account_table w' !! j = Some row)
       /\ size (account_table w') = S (size (account_table w))
       /\ ("customer", Account_bar a, Account_owner a) ∈ role_table w'
       /\ role_table w ⊆ role_table w')
  /\ (pair_taken a w ->
        exists w',
          Account_save_checked a w = IntegrityError w'
          /\ account_table w' = account_table w).
Proof.
  intros Hid. split.
  - intros Hfree. pose proof (saved_key_fresh a w Hid) as Hfresh.
    exists (saved_key a w). eexists. split.
    { rewrite (Account_save_checked_accepted a w Hfree), Account_save_eq. reflexivity. }
    rewrite Hid. cbn.
    split; [now apply saved_key_nonzero|].
    split; [exact Hfresh|]. split; [apply lookup_insert_eq|]. split.
    { intros j row Hrow. rewrite lookup_insert_ne; [exact Hrow|]. congruence. }
    split; [rewrite map_size_insert_None by exact Hfresh; reflexivity|].
    split; set_solver.
  - intros Htaken.
    destruct (Account_save_checked_refused a w Htaken) as (w' & Hrefused & Htable & _).
    exists w'. now split.
Qed.

(** X2: saving an account object that has a key.  When no other row
    carries its (bar, owner) pair, the row of that key is replaced and
    nothing else: the other rows, the bars, the settings and the
    transaction log are untouched, and for a non-zero key so are the roles;
    when the row existed the table keeps its size.  When another row
    carries the pair the save is refused with [IntegrityError] and the
    account table is as it was. *)
Theorem Account_save_updates_one_row (a : Account) (k : pk) (w : World) :
  Account_id a = Some k ->
  (~ pair_taken a w ->
     exists w',
       Account_save_checked a w = Saved (stored_as k (clock w) a) w'
       /\ account_table w' !! k = Some (stored_as k (clock w) a)
       /\ (forall j, j <> k -> account_table w' !! j = account_table w !! j)
       /\ (is_Some (account_table w !! k) ->
           size (account_table w') = size (account_table w))
       /\ (k <> 0%N -> role_table w' = role_table w)
       /\ bar_table w' = bar_table w
       /\ barsettings_table w' = barsettings_table w
       /\ transaction_log w' = transaction_log w)
  /\ (forall j row,
        account_table w !! j = Some row ->
        j <> k ->
        Account_owner row = Account_owner a ->
        Account_bar row = Account_bar a ->
        exists w',
          Account_save_checked a w = IntegrityError w'
          /\ account_table w' = account_table w).
Proof.
  intros Hid. split.
  - intros Hfree. eexists. split.
    { rewrite (Account_save_checked_accepted a w Hfree), Account_save_eq.
      unfold saved_key. rewrite Hid. reflexivity. }
    cbn. split; [apply lookup_insert_eq|]. split.
    { intros j Hj. now apply lookup_insert_ne. }
    split.
    { intros [row Hrow]. rewrite map_size_insert_Some by eauto. reflexivity. }
    split.
    { intros Hk. destruct k; [congruence|reflexivity]. }
    destruct k; cbn; repeat split; reflexivity.
  - intros j row Hrow Hj Ho Hb.
    assert (pair_taken a w) as Htaken.
    { exists j, row. rewrite Hid. repeat split; congruence. }
    destruct (Account_save_checked_refused a w Htaken) as (w' & Hrefused & Htable & _).
    exists w'. now split.
Qed.

(** X3: an accepted save is idempotent while the clock stands still:
    saving the object it returned, in the store it left, is accepted too,
    returns the same object and leaves the same store. *)
Theorem Account_save_twice (a a1 : Account) (w w1 : World) :
  Account_save_checked a w = Saved a1 w1 ->
  Account_save_checked a1 w1 = Saved a1 w1.
Proof.
  intros Hfirst.
  assert (~ pair_taken a w) as Hfree.
  { intros Htaken. destruct (Account_save_checked_refused a w Htaken) as (w' & Hr & _).
    congruence. }
  rewrite (Account_save_checked_accepted a w Hfree), Account_save_eq in Hfirst.
  cbn [value_or world_after] in Hfirst. injection Hfirst as <- <-.
  set (k := saved_key a w).
  set (a1 := stored_as k (clock w) a).
  set (w0 := if truthy (Account_id a) then w
             else with_roles ({[ ("customer", Account_bar a, Account_owner a) ]}
                              ∪ role_table w) w).
  assert (account_table w0 = account_table w) as Htable0
    by (subst w0; now destruct (truthy (Account_id a))).
  assert (clock w0 = clock w) as Hclock0
    by (subst w0; now destruct (truthy (Account_id a))).
  assert (~ pair_taken a1 (with_accounts (<[k := a1]> (account_table w)) w0)) as Hfree1.
  { intros (j & row & Hrow & Hj & Ho & Hb). cbn in Hrow, Hj, Ho, Hb.
    assert (j <> k) as Hjk by congruence.
    rewrite lookup_insert_ne in Hrow by congruence.
    apply Hfree. exists j, row. repeat split; try assumption.
    subst k. unfold saved_key in Hjk. destruct (Account_id a); congruence. }
  rewrite (Account_save_checked_accepted _ _ Hfree1), Account_save_eq.
  cbn [value_or world_after].
  assert (forall (R : gset Role) (r : Role), {[ r ]} ∪ ({[ r ]} ∪ R) = {[ r ]} ∪ R)
    as Hroles by (intros R r; now rewrite (assoc_L (∪)), (idemp_L (∪))).
  assert (saved_key a1 (with_accounts (<[k := a1]> (account_table w)) w0) = k)
    as -> by reflexivity.
  assert (stored_as k (clock (with_accounts (<[k := a1]> (account_table w)) w0)) a1 = a1)
    as -> by (cbn; now rewrite Hclock0).
  f_equal. cbn [Account_id Account_bar Account_owner stored_as a1 account_table
                with_accounts].
  rewrite insert_insert_eq.
  assert (truthy (Some k) = true \/ truthy (Account_id a) = false) as Hkey.
  { destruct (Account_id a) as [[|p]|] eqn:Hid.
    - now right.
    - left. subst k. unfold saved_key. now rewrite Hid.
    - now right. }
  subst w0.
  destruct (truthy (Some k)) eqn:Hk.
  - reflexivity.
  - destruct Hkey as [Hkey|Hold]; [discriminate|]. rewrite Hold.
    unfold with_accounts, with_roles. cbn. now rewrite Hroles.
Qed.

Lemma no_row_with_pair (owner : pk) (bar : string) (w : World) :
  accounts_of owner bar w = ∅ ->
  forall j row, account_table w !! j = Some row ->
                ~ (Account_bar row = bar /\ Account_owner row = owner).
Proof.
  intros Hnone j row Hrow [Hb Ho].
  assert (accounts_of owner bar w !! j = Some row) as Hin
    by (apply map_lookup_filter_Some; split; [exact Hrow|now split]).
  rewrite Hnone in Hin. now rewrite lookup_empty in Hin.
Qed.

Lemma unique_together_insert (t : gmap pk Account) (k : pk) (a : Account) :
  unique_together t ->
  (forall j row, t !! j = Some row ->
                 ~ (Account_bar row = Account_bar a /\ Account_owner row = Account_owner a)) ->
  unique_together (<[k := a]> t).
Proof.
  intros Huniq Hfree i j x y Hx Hy Hbar Howner.
  destruct (decide (i = k)) as [->|Hi]; destruct (decide (j = k)) as [->|Hj];
    [reflexivity| | |].
  - rewrite lookup_insert_eq in Hx. rewrite lookup_insert_ne in Hy by congruence.
    injection Hx as <-. exfalso. apply (Hfree _ _ Hy). split; congruence.
  - rewrite lookup_insert_eq in Hy. rewrite lookup_insert_ne in Hx by congruence.
    injection Hy as <-. exfalso. apply (Hfree _ _ Hx). split; congruence.
  - rewrite lookup_insert_ne in Hx, Hy by congruence.
    exact (Huniq i j x y Hx Hy Hbar Howner).
Qed.

(** X5: inserting a new account keeps the (bar, owner) pairs unique as
    long as no stored row carries the pair of the new account. *)
Theorem Account_save_new_keeps_unique_together (a : Account) (w : World) :
  unique_together (account_table w) ->
  Account_id a = None ->
  accounts_of (Account_owner a) (Account_bar a) w = ∅ ->
  unique_together (account_table (world_after (Account_save a w))).
Proof.
  intros Huniq Hid Hnone. rewrite Account_save_eq. cbn [world_after account_table with_accounts].
  apply unique_together_insert; [exact Huniq|].
  intros j row Hrow. cbn [Account_bar Account_owner stored_as].
  exact (no_row_with_pair _ _ w Hnone j row Hrow).
Qed.

(** * More of [Bar.save] *)

(** X6: [Bar.save] is idempotent: saving the same bar again, in the store
    the first save left, changes nothing. *)
Theorem Bar_save_twice (self : Bar) (w : World) :
  exists w1,
    Bar_save self w = Returns tt w1
    /\ Bar_save self w1 = Returns tt w1.
Proof.
  unfold Bar_save, bind, modify, BarSettings_get_or_create, ret.
  cbn [barsettings_table bar_table with_bars clock].
  destruct (barsettings_table w !! Bar_id self) as [s|] eqn:Hs.
  - eexists. split; [reflexivity|]. cbn. rewrite Hs.
    unfold with_bars. cbn. now rewrite insert_insert_eq.
  - eexists. split; [reflexivity|]. cbn. rewrite lookup_insert_eq.
    unfold with_bars, with_barsettings. cbn. now rewrite insert_insert_eq.
Qed.

(** * More of [Bar.apply_agios] *)

Section EngineErrors.

Variable get_default_user : World -> User.
Variable is_valid : TransactionData -> RequestContext -> World -> bool.

Abbreviation apply_agios' := (Bar_apply_agios get_default_user is_valid).
Abbreviation make_agios' := (makeAgiosTransaction get_default_user is_valid).

Lemma bind_ext {A B} (m : M A) (k1 k2 : A -> M B) (w : World) :
  (forall a w', k1 a w' = k2 a w') -> bind m k1 w = bind m k2 w.
Proof. intros H. unfold bind. destruct (m w); [apply H|reflexivity]. Qed.

Lemma start_known_facts (account : Account) (w : World) :
  let a1 := (start_known account w).1 in
  let w1 := (start_known account w).2 in
  Account_overdrawn_since a1
  = Some (default (today w) (Account_overdrawn_since account))
  /\ Account_money a1 = Account_money account
  /\ Account_bar a1 = Account_bar account
  /\ Account_owner a1 = Account_owner account
  /\ Account_deleted a1 = Account_deleted account
  /\ barsettings_table w1 = barsettings_table w
  /\ bar_table w1 = bar_table w
  /\ transaction_log w1 = transaction_log w
  /\ clock w1 = clock w.
Proof.
  unfold start_known.
  destruct (Account_overdrawn_since account) as [since|] eqn:Hsince; cbn.
  - rewrite Hsince. now repeat split.
  - rewrite Account_save_eq. cbn.
    destruct (truthy (Account_id account)); now repeat split.
Qed.

(** The overdrawn branch in one equation: the decision about the fee is
    taken on the object and in the store of [start_known]. *)
Lemma apply_agios_overdrawn (self : Bar) (account : Account) (w : World) :
  (Account_money account <? 0)%float = true ->
  let a1 := (start_known account w).1 in
  let w1 := (start_known account w).2 in
  let since := default (today w) (Account_overdrawn_since account) in
  apply_agios' self account w =
    (settings <- Bar_settings self ;;
     if BarSettings_agios_enabled settings then
       threshold <- timedelta (BarSettings_agios_threshold settings) ;;
       if datetime.timedelta_ge (datetime.date_sub (today w) since) threshold then
         let delta := agios_delta (Account_money account)
                                  (BarSettings_agios_factor settings) in
         make_agios' self a1 delta ;;; ret (delta, a1)
       else ret (0%float, a1)
     else ret (0%float, a1)) w1.
Proof.
  intros Hneg a1 w1 since. subst a1 w1 since. unfold Bar_apply_agios, start_known.
  rewrite (float_neg_not_nonneg _ Hneg), Hneg. cbn [andb].
  unfold bind at 1. unfold get. unfold bind at 1.
  destruct (Account_overdrawn_since account) as [since|] eqn:Hsince.
  - unfold ret at 1. cbn [fst snd default].
    apply bind_ext. intros settings w'.
    destruct (BarSettings_agios_enabled settings); [|reflexivity].
    rewrite Hsince. reflexivity.
  - rewrite Account_save_eq. cbn [fst snd default value_or world_after].
    apply bind_ext. intros settings w'.
    destruct (BarSettings_agios_enabled settings); reflexivity.
Qed.

(** Every way in which [apply_agios] can raise. *)
Lemma apply_agios_raises_inv (self : Bar) (account : Account) (w w' : World) (e : exn) :
  apply_agios' self account w = Raises e w' ->
  let a1 := (start_known account w).1 in
  let w1 := (start_known account w).2 in
  let since := default (today w) (Account_overdrawn_since account) in
  (Account_money account <? 0)%float = true
  /\ w' = w1
  /\ match e with
     | DoesNotExist => barsettings_table w !! Bar_id self = None
     | ValueError | OverflowError =>
         exists settings err,
           barsettings_table w !! Bar_id self = Some settings
           /\ BarSettings_agios_enabled settings = true
           /\ datetime.timedelta_of_days (BarSettings_agios_threshold settings) = inl err
           /\ e = timedelta_exn err
     | ValidationError =>
         exists settings threshold,
           barsettings_table w !! Bar_id self = Some settings
           /\ BarSettings_agios_enabled settings = true
           /\ datetime.timedelta_of_days (BarSettings_agios_threshold settings)
              = inr threshold
           /\ datetime.timedelta_ge (datetime.date_sub (today w) since) threshold = true
           /\ is_valid
                {| data_type := "agios"; data_account := Account_id a1;
                   data_amount := agios_delta (Account_money account)
                                              (BarSettings_agios_factor settings) |}
                {| request_bar := self; request_user := get_default_user w1;
                   request_user_has_perm := true |} w1 = false
     | TypeError => False
     end.
Proof.
  intros Hraises a1 w1 since.
  destruct (Account_money account <? 0)%float eqn:Hneg.
  2:{ exfalso. unfold Bar_apply_agios in Hraises. rewrite Hneg in Hraises.
      destruct ((0 <=? Account_money account)%float
                && bool_decide (Account_overdrawn_since account <> None));
        [|discriminate Hraises].
      unfold bind in Hraises. rewrite Account_save_eq in Hraises.
      discriminate Hraises. }
  split; [reflexivity|].
  rewrite (apply_agios_overdrawn self account w Hneg) in Hraises.
  fold a1 w1 since in Hraises.
  destruct (start_known_facts account w) as (_ & _ & _ & _ & _ & Hbs & _).
  fold w1 in Hbs.
  unfold bind at 1 in Hraises. unfold Bar_settings in Hraises. rewrite Hbs in Hraises.
  destruct (barsettings_table w !! Bar_id self) as [settings|] eqn:Hsettings.
  2:{ injection Hraises as <- <-. now split. }
  destruct (BarSettings_agios_enabled settings) eqn:Hon; [|discriminate Hraises].
  unfold bind at 1 in Hraises. unfold timedelta in Hraises.
  destruct (datetime.timedelta_of_days (BarSettings_agios_threshold settings))
    as [err|threshold] eqn:Htd.
  { destruct err; injection Hraises as <- <-; (split; [reflexivity|]);
      eexists settings, _; (repeat split; [exact Hon|exact Htd|reflexivity]). }
  unfold ret at 1 in Hraises.
  destruct (datetime.timedelta_ge (datetime.date_sub (today w) since) threshold) eqn:Hge;
    [|discriminate Hraises].
  cbv zeta in Hraises. unfold bind at 1 in Hraises.
  match type of Hraises with context [make_agios' self a1 ?d w1] =>
    destruct (is_valid {| data_type := "agios"; data_account := Account_id a1;
                          data_amount := d |}
                       {| request_bar := self; request_user := get_default_user w1;
                          request_user_has_perm := true |} w1) eqn:Hvalid end.
  - destruct (makeAgiosTransaction_accepted get_default_user is_valid self a1 _ w1 Hvalid)
      as (w2 & Hmake & _).
    rewrite Hmake in Hraises. discriminate Hraises.
  - rewrite (makeAgiosTransaction_rejected get_default_user is_valid self a1 _ w1 Hvalid)
      in Hraises.
    injection Hraises as <- <-. split; [reflexivity|].
    exists settings, threshold. now repeat split.
Qed.

(** X7: a NaN balance is neither at least zero nor negative, so
    [apply_agios] does nothing at all: it returns zero and leaves the
    account object and the store as they are, whatever the start date and
    the settings (which are not even looked up). *)
Theorem apply_agios_nan_balance_is_noop (self : Bar) (account : Account) (w : World) :
  is_nan (Account_money account) = true ->
  apply_agios' self account w = Returns (0%float, account) w.
Proof.
  intros Hnan. destruct (float_nan_unordered _ Hnan) as [Hnonneg Hneg].
  unfold Bar_apply_agios. now rewrite Hnonneg, Hneg.
Qed.

(** X8: [apply_agios] raises [DoesNotExist] exactly when the balance is
    negative and the bar has no settings row.  It then stops in the store
    of [start_known]: if the start date was unset, today's date has
    already been stored with the account. *)
Theorem apply_agios_missing_settings (self : Bar) (account : Account) (w : World) :
  ((Account_money account <? 0)%float = true
   /\ barsettings_table w !! Bar_id self = None
   <-> exists w', apply_agios' self account w = Raises DoesNotExist w')
  /\ (forall w', apply_agios' self account w = Raises DoesNotExist w' ->
        w' = (start_known account w).2
        /\ (forall since, Account_overdrawn_since account = Some since -> w' = w)
        /\ (Account_overdrawn_since account = None ->
            Account_overdrawn_since
              <$> account_table w' !! saved_key account w = Some (Some (today w)))).
Proof.
  split; [split|].
  - intros [Hneg Hnone]. exists (start_known account w).2.
    rewrite (apply_agios_overdrawn self account w Hneg).
    destruct (start_known_facts account w) as (_ & _ & _ & _ & _ & Hbs & _).
    unfold bind, Bar_settings. now rewrite Hbs, Hnone.
  - intros [w' Hraises].
    destruct (apply_agios_raises_inv _ _ _ _ _ Hraises) as (Hneg & _ & Hnone).
    now split.
  - intros w' Hraises.
    destruct (apply_agios_raises_inv _ _ _ _ _ Hraises) as (_ & -> & _).
    split; [reflexivity|]. unfold start_known. split.
    + intros since Hsince. now rewrite Hsince.
    + intros Hsince. rewrite Hsince, Account_save_eq. cbn.
      now rewrite lookup_insert_eq.
Qed.

(** X9: with accrual enabled, a threshold that [timedelta] cannot convert
    makes [apply_agios] fail on every overdrawn account: [ValueError] for
    NaN, [OverflowError] for an infinity or more than 999999999 days.  The
    transaction log is left as it was. *)
Theorem apply_agios_unusable_threshold (self : Bar) (account : Account) (w : World)
    (settings : BarSettings) (err : datetime.conversion_error) :
  (Account_money account <? 0)%float = true ->
  barsettings_table w !! Bar_id self = Some settings ->
  BarSettings_agios_enabled settings = true ->
  datetime.timedelta_of_days (BarSettings_agios_threshold settings) = inl err ->
  apply_agios' self account w = Raises (timedelta_exn err) (start_known account w).2
  /\ transaction_log (start_known account w).2 = transaction_log w.
Proof.
  intros Hneg Hsettings Hon Htd.
  destruct (start_known_facts account w) as (_ & _ & _ & _ & _ & Hbs & _ & Hlog & _).
  split; [|exact Hlog].
  rewrite (apply_agios_overdrawn self account w Hneg).
  unfold bind at 1. unfold Bar_settings. rewrite Hbs, Hsettings, Hon.
  unfold bind at 1. unfold timedelta. rewrite Htd. now destruct err.
Qed.

(** X10: when a fee is due and the serializer rejects the request,
    [apply_agios] raises [ValidationError] and nothing is added to the
    transaction log; with a start date already set the store is exactly as
    before. *)
Theorem apply_agios_rejected_fee (self : Bar) (account : Account) (w : World)
    (settings : BarSettings) (threshold : datetime.timedelta) :
  (Account_money account <? 0)%float = true ->
  barsettings_table w !! Bar_id self = Some settings ->
  BarSettings_agios_enabled settings = true ->
  datetime.timedelta_of_days (BarSettings_agios_threshold settings) = inr threshold ->
  datetime.timedelta_ge
    (datetime.date_sub (today w) (default (today w) (Account_overdrawn_since account)))
    threshold = true ->
  is_valid
    {| data_type := "agios"; data_account := Account_id (start_known account w).1;
       data_amount := agios_delta (Account_money account)
                                  (BarSettings_agios_factor settings) |}
    {| request_bar := self; request_user := get_default_user (start_known account w).2;
       request_user_has_perm := true |} (start_known account w).2 = false ->
  apply_agios' self account w = Raises ValidationError (start_known account w).2
  /\ transaction_log (start_known account w).2 = transaction_log w
  /\ (forall since, Account_overdrawn_since account = Some since ->
        (start_known account w).2 = w).
Proof.
  intros Hneg Hsettings Hon Htd Hge Hvalid.
  destruct (start_known_facts account w) as (_ & _ & _ & _ & _ & Hbs & _ & Hlog & _).
  split; [|split; [exact Hlog|]].
  - rewrite (apply_agios_overdrawn self account w Hneg).
    unfold bind at 1. unfold Bar_settings. rewrite Hbs, Hsettings, Hon.
    unfold bind at 1. rewrite (timedelta_accepts _ _ _ Htd), Hge.
    cbv zeta. unfold bind at 1.
    now rewrite (makeAgiosTransaction_rejected get_default_user is_valid _ _ _ _ Hvalid).
  - intros since Hsince. unfold start_known. now rewrite Hsince.
Qed.

(** The object a returning call hands back is the one it was given, that
    object saved with the date cleared, or the object of [start_known]. *)
Lemma apply_agios_returned_object (self : Bar) (account account' : Account)
    (w w' : World) (r : float) :
  apply_agios' self account w = Returns (r, account') w' ->
  account' = account
  \/ account' = stored_as (saved_key account w) (clock w)
                          (set_overdrawn_since None account)
  \/ account' = (start_known account w).1.
Proof.
  intros Hret.
  destruct (Account_money account <? 0)%float eqn:Hneg.
  - right. right.
    rewrite (apply_agios_overdrawn self account w Hneg) in Hret.
    unfold bind at 1 in Hret.
    destruct (Bar_settings self _) as [settings w1|] in Hret; [|discriminate Hret].
    destruct (BarSettings_agios_enabled settings); [|now injection Hret as <- <- <-].
    unfold bind at 1 in Hret.
    destruct (timedelta _ w1) as [threshold w2|] in Hret; [|discriminate Hret].
    destruct (datetime.timedelta_ge _ threshold); [|now injection Hret as <- <- <-].
    cbv zeta in Hret. unfold bind at 1 in Hret.
    destruct (make_agios' self _ _ w2) in Hret; [|discriminate Hret].
    now injection Hret as <- <- <-.
  - unfold Bar_apply_agios in Hret. rewrite Hneg in Hret.
    destruct ((0 <=? Account_money account)%float
              && bool_decide (Account_overdrawn_since account <> None)).
    + right. left. unfold bind in Hret. rewrite Account_save_eq in Hret.
      now injection Hret as <- <- <-.
    + left. now injection Hret as <- <- <-.
Qed.

(** X12: [apply_agios] never writes the balance, the bar, the owner or the
    soft-delete flag of the account object: whatever it returns, and even
    after a fee was charged, the object it leaves has the balance it came
    with. *)
Theorem apply_agios_keeps_object_fields (self : Bar) (account account' : Account)
    (w w' : World) (r : float) :
  apply_agios' self account w = Returns (r, account') w' ->
  Account_money account' = Account_money account
  /\ Account_bar account' = Account_bar account
  /\ Account_owner account' = Account_owner account
  /\ Account_deleted account' = Account_deleted account.
Proof.
  intros Hret.
  destruct (apply_agios_returned_object _ _ _ _ _ _ Hret) as [->| [->| ->]].
  - now repeat split.
  - now repeat split.
  - destruct (start_known_facts account w) as (_ & Hm & Hb & Ho & Hd & _).
    now repeat split.
Qed.

(** X13: a run that charges nothing on an overdrawn account (accrual
    disabled, or fewer elapsed days than the threshold) can be repeated at
    once: the second run, on the object and in the store the first one
    left, returns zero again and changes nothing more.  In particular the
    start date is set once, not moved. *)
Theorem apply_agios_rerun_same_day (self : Bar) (account : Account) (w : World)
    (settings : BarSettings) :
  (Account_money account <? 0)%float = true ->
  barsettings_table w !! Bar_id self = Some settings ->
  (BarSettings_agios_enabled settings = false
   \/ exists threshold,
        datetime.timedelta_of_days (BarSettings_agios_threshold settings) = inr threshold
        /\ datetime.timedelta_ge
             (datetime.date_sub (today w)
                                (default (today w) (Account_overdrawn_since account)))
             threshold = false) ->
  exists a1 w1,
    apply_agios' self account w = Returns (0%float, a1) w1
    /\ Account_overdrawn_since a1
       = Some (default (today w) (Account_overdrawn_since account))
    /\ apply_agios' self a1 w1 = Returns (0%float, a1) w1.
Proof.
  intros Hneg Hsettings Hquiet.
  destruct (start_known_facts account w)
    as (Hsince1 & Hmoney1 & _ & _ & _ & Hbs & _ & _ & Hclock).
  set (a1 := (start_known account w).1) in *.
  set (w1 := (start_known account w).2) in *.
  assert (forall (a : Account) (v : World) (d : float),
             barsettings_table v = barsettings_table w ->
             (if BarSettings_agios_enabled settings then
                (threshold <- timedelta (BarSettings_agios_threshold settings) ;;
                 if datetime.timedelta_ge
                      (datetime.date_sub (today w)
                         (default (today w) (Account_overdrawn_since account)))
                      threshold
                 then
                   let delta := d in
                   make_agios' self a delta ;;; ret (delta, a)
                 else ret (0%float, a)) v
              else Returns (0%float, a) v) = Returns (0%float, a) v) as Hdecide.
  { intros a v d _. destruct Hquiet as [->|(threshold & Htd & Hge)]; [reflexivity|].
    destruct (BarSettings_agios_enabled settings); [|reflexivity].
    unfold bind at 1. now rewrite (timedelta_accepts _ _ _ Htd), Hge. }
  exists a1, w1. split; [|split; [exact Hsince1|]].
  - rewrite (apply_agios_overdrawn self account w Hneg). fold a1 w1.
    unfold bind at 1. unfold Bar_settings. rewrite Hbs, Hsettings.
    destruct (BarSettings_agios_enabled settings) eqn:Hon.
    + specialize (Hdecide a1 w1 (agios_delta (Account_money account)
                                   (BarSettings_agios_factor settings)) Hbs).
      exact Hdecide.
    + reflexivity.
  - assert ((Account_money a1 <? 0)%float = true) as Hneg1 by now rewrite Hmoney1.
    rewrite (apply_agios_overdrawn self a1 w1 Hneg1).
    assert (start_known a1 w1 = (a1, w1)) as ->
      by (unfold start_known; now rewrite Hsince1).
    cbn [fst snd]. rewrite Hsince1. cbn [default].
    assert (today w1 = today w) as -> by (unfold today; now rewrite Hclock).
    unfold bind at 1. unfold Bar_settings. rewrite Hbs, Hsettings.
    destruct (BarSettings_agios_enabled settings) eqn:Hon.
    + rewrite Hmoney1.
      specialize (Hdecide a1 w1 (agios_delta (Account_money account)
                                   (BarSettings_agios_factor settings)) Hbs).
      exact Hdecide.
    + reflexivity.
Qed.


(** X15: after [Bar.save], [apply_agios] for that bar never fails for want
    of settings, whatever the account. *)
Theorem apply_agios_after_Bar_save (self : Bar) (account : Account) (w w' : World) :
  apply_agios' self account (world_after (Bar_save self w)) <> Raises DoesNotExist w'.
Proof.
  intros Hraises.
  destruct (apply_agios_raises_inv _ _ _ _ _ Hraises) as (_ & _ & Hnone).
  revert Hnone. unfold Bar_save, bind, modify, BarSettings_get_or_create, ret.
  cbn [barsettings_table bar_table with_bars clock].
  destruct (barsettings_table w !! Bar_id self) as [s|] eqn:Hs; cbn.
  - now rewrite Hs.
  - now rewrite lookup_insert_eq.
Qed.


End EngineErrors.

(** * [Account.save] and [Bar.count_accounts] together *)

(** Whether an account counts for a bar, as a number. *)
Abbreviation counts_for self a := (Nat.b2n (bool_decide (is_active_account_of self a))).

Lemma count_accounts_filter (self : Bar) (w : World) :
  Bar_count_accounts self w
  = size (filter (fun kr : pk * Account => is_active_account_of self kr.2)
                 (account_table w)).
Proof.
  unfold Bar_count_accounts, count, filter_deleted, Bar_account_set.
  rewrite map_filter_filter. f_equal. apply map_filter_ext.
  intros k a _. unfold is_active_account_of. cbn. tauto.
Qed.

Lemma count_accounts_after_insert (self : Bar) (k : pk) (a : Account) (w : World) :
  (Bar_count_accounts self (with_accounts (<[k := a]> (account_table w)) w)
   + match account_table w !! k with
     | Some row => counts_for self row
     | None => 0
     end
   = Bar_count_accounts self w + counts_for self a)%nat.
Proof.
  rewrite !count_accounts_filter. cbn [account_table with_accounts].
  set (P := fun kr : pk * Account => is_active_account_of self kr.2).
  rewrite map_filter_insert.
  destruct (decide (P (k, a))) as [Ha|Ha]; cbn in Ha.
  - rewrite (bool_decide_true _ Ha), map_size_insert. cbn [Nat.b2n].
    destruct (account_table w !! k) as [row|] eqn:Hrow.
    + destruct (decide (is_active_account_of self row)) as [Hr|Hr].
      * rewrite (bool_decide_true _ Hr).
        assert (filter P (account_table w) !! k = Some row) as ->
          by (now apply map_lookup_filter_Some).
        reflexivity.
      * rewrite (bool_decide_false _ Hr).
        assert (filter P (account_table w) !! k = None) as ->.
        { apply map_lookup_filter_None_2. right. intros x Hx.
          rewrite Hrow in Hx. now injection Hx as <-. }
        cbn. lia.
    + assert (filter P (account_table w) !! k = None) as ->
        by (apply map_lookup_filter_None_2; now left).
      cbn. lia.
  - rewrite (bool_decide_false _ Ha), map_filter_delete, map_size_delete.
    cbn [Nat.b2n].
    destruct (account_table w !! k) as [row|] eqn:Hrow.
    + destruct (decide (is_active_account_of self row)) as [Hr|Hr].
      * rewrite (bool_decide_true _ Hr).
        assert (filter P (account_table w) !! k = Some row) as Hin
          by (now apply map_lookup_filter_Some).
        rewrite Hin. cbn [Nat.b2n].
        assert (size (filter P (account_table w)) <> 0)%nat
          by (apply (map_size_ne_0_lookup_2 _ k); eauto).
        lia.
      * rewrite (bool_decide_false _ Hr).
        assert (filter P (account_table w) !! k = None) as ->.
        { apply map_lookup_filter_None_2. right. intros x Hx.
          rewrite Hrow in Hx. now injection Hx as <-. }
        cbn. lia.
    + assert (filter P (account_table w) !! k = None) as ->
        by (apply map_lookup_filter_None_2; now left).
      cbn. lia.
Qed.

Lemma counts_for_stored_as (self : Bar) (k : pk) (now : Z) (a : Account) :
  counts_for self (stored_as k now a) = counts_for self a.
Proof. reflexivity. Qed.

(** X17: saving a new account (an object without a key).  When no stored
    row carries its (bar, owner) pair the save is accepted and raises the
    [count_accounts] of a bar by one exactly when the account belongs to
    that bar and is not soft-deleted; when a row carries the pair the save
    is refused and every count is as before. *)
Theorem count_accounts_after_new_account (self : Bar) (a : Account) (w : World) :
  Account_id a = None ->
  (~ pair_taken a w ->
     exists a' w',
       Account_save_checked a w = Saved a' w'
       /\ Bar_count_accounts self w'
          = (Bar_count_accounts self w + counts_for self a)%nat)
  /\ (pair_taken a w ->
        exists w',
          Account_save_checked a w = IntegrityError w'
          /\ Bar_count_accounts self w' = Bar_count_accounts self w).
Proof.
  intros Hid. split.
  - intros Hfree. eexists _, _.
    split; [exact (Account_save_checked_accepted a w Hfree)|].
    rewrite Account_save_eq. cbn [world_after].
    pose proof (count_accounts_after_insert self (saved_key a w)
                  (stored_as (saved_key a w) (clock w) a) w) as Hcount.
    rewrite (saved_key_fresh a w Hid), counts_for_stored_as in Hcount.
    rewrite <- Hcount, Nat.add_0_r.
    rewrite !count_accounts_filter. cbn [account_table with_accounts].
    now destruct (truthy (Account_id a)).
  - intros Htaken.
    destruct (Account_save_checked_refused a w Htaken) as (w' & Hrefused & Htable & _).
    exists w'. split; [exact Hrefused|].
    rewrite !count_accounts_filter. now rewrite Htable.
Qed.

(** X18: saving an account that is already stored.  When no other row
    carries its (bar, owner) pair the save is accepted and moves each
    bar's [count_accounts] by the difference between what the object and
    what the old row count for, so an object that agrees with its row on
    the bar and the soft-delete flag leaves every count as it was; when
    another row carries the pair the save is refused and every count is
    as before. *)
Theorem count_accounts_after_update (self : Bar) (a row : Account) (k : pk) (w : World) :
  Account_id a = Some k ->
  account_table w !! k = Some row ->
  (~ pair_taken a w ->
     exists a' w',
       Account_save_checked a w = Saved a' w'
       /\ (Bar_count_accounts self w' + counts_for self row
           = Bar_count_accounts self w + counts_for self a)%nat
       /\ (Account_bar a = Account_bar row ->
           Account_deleted a = Account_deleted row ->
           Bar_count_accounts self w' = Bar_count_accounts self w))
  /\ (pair_taken a w ->
        exists w',
          Account_save_checked a w = IntegrityError w'
          /\ Bar_count_accounts self w' = Bar_count_accounts self w).
Proof.
  intros Hid Hrow. split.
  - intros Hfree. eexists _, _.
    split; [exact (Account_save_checked_accepted a w Hfree)|].
    rewrite Account_save_eq. cbn [world_after].
    assert (saved_key a w = k) as -> by (unfold saved_key; now rewrite Hid).
    pose proof (count_accounts_after_insert self k (stored_as k (clock w) a) w) as Hcount.
    rewrite Hrow, counts_for_stored_as in Hcount.
    assert (Bar_count_accounts self
              (with_accounts (<[k := stored_as k (clock w) a]> (account_table w))
                 (if truthy (Account_id a) then w
                  else with_roles ({[ ("customer", Account_bar a, Account_owner a) ]}
                                   ∪ role_table w) w))
            = Bar_count_accounts self
                (with_accounts (<[k := stored_as k (clock w) a]> (account_table w)) w))
      as -> by (rewrite !count_accounts_filter; now destruct (truthy (Account_id a))).
    split; [exact Hcount|].
    intros Hbar Hdel.
    assert (counts_for self a = counts_for self row) as Hsame.
    { f_equal. apply bool_decide_ext. unfold is_active_account_of.
      rewrite Hbar, Hdel. tauto. }
    rewrite Hsame in Hcount. lia.
  - intros Htaken.
    destruct (Account_save_checked_refused a w Htaken) as (w' & Hrefused & Htable & _).
    exists w'. split; [exact Hrefused|].
    rewrite !count_accounts_filter. now rewrite Htable.
Qed.

(** * [get_default_account] *)

Lemma QuerySet_get_empty : QuerySet_get ∅ = NoRow.
Proof. unfold QuerySet_get. now rewrite map_to_list_empty. Qed.

Lemma QuerySet_get_singleton (k : pk) (a : Account) :
  QuerySet_get {[ k := a ]} = Got k a.
Proof. unfold QuerySet_get. now rewrite map_to_list_singleton. Qed.

(** A query set whose rows all sit under one key is empty or a single row. *)
Lemma at_most_one_row (qs : gmap pk Account) :
  (forall j k a b, qs !! j = Some a -> qs !! k = Some b -> j = k) ->
  qs = ∅ \/ exists k a, qs = {[ k := a ]}.
Proof.
  intros Hone. induction qs as [|k a m Hfresh _] using map_ind; [now left|].
  right. exists k, a.
  assert (m = ∅) as ->; [|apply insert_empty].
  apply map_empty. intros j. destruct (m !! j) as [b|] eqn:Hj; [|reflexivity].
  exfalso. assert (j = k) as ->; [|congruence].
  apply (Hone j k b a).
  - rewrite lookup_insert_ne; [exact Hj|congruence].
  - apply lookup_insert_eq.
Qed.

Lemma accounts_of_at_most_one (owner : pk) (bar : string) (w : World) :
  unique_together (account_table w) ->
  accounts_of owner bar w = ∅
  \/ exists k a, accounts_of owner bar w = {[ k := a ]}.
Proof.
  intros Huniq. apply at_most_one_row. intros j k a b Ha Hb.
  apply map_lookup_filter_Some in Ha as [Ha [Hao Hab]].
  apply map_lookup_filter_Some in Hb as [Hb [Hbo Hbb]].
  cbn in *. apply (Huniq j k a b Ha Hb); congruence.
Qed.

Lemma accounts_of_after_creation (owner : pk) (bar : string) (w : World) :
  accounts_of owner bar w = ∅ ->
  let k := saved_key (Account_new owner bar) w in
  let a := stored_as k (clock w) (Account_new owner bar) in
  accounts_of owner bar (world_after (Account_save (Account_new owner bar) w))
  = {[ k := a ]}.
Proof.
  intros Hnone k a. rewrite Account_save_eq. cbn [world_after].
  unfold accounts_of in *. cbn [account_table with_accounts].
  rewrite map_filter_insert_True by (cbn; now split).
  rewrite Hnone. apply insert_empty.
Qed.

Section DefaultAccountFacts.

Variable user : User.

Abbreviation default_account := (get_default_account (fun _ => user)).

(** X19: while the (bar, owner) pairs of the account table are unique,
    [get_default_account] never fails: it returns an account of the default
    user in the given bar, read from a row of the store it leaves; the
    store is untouched when the account existed, and the pairs are still
    unique afterwards. *)
Theorem get_default_account_returns (bar : Bar) (w : World) :
  unique_together (account_table w) ->
  exists k row w',
    default_account bar w = inr (loaded k row, w')
    /\ account_table w' !! k = Some row
    /\ Account_owner row = User_id user
    /\ Account_bar row = Bar_id bar
    /\ (accounts_of (User_id user) (Bar_id bar) w <> ∅ -> w' = w)
    /\ unique_together (account_table w').
Proof.
  intros Huniq. unfold get_default_account, Account_get_or_create.
  destruct (accounts_of_at_most_one (User_id user) (Bar_id bar) w Huniq)
    as [Hnone|(k & row & Hone)].
  - rewrite Hnone, QuerySet_get_empty, Account_save_eq.
    exists (saved_key (Account_new (User_id user) (Bar_id bar)) w),
           (stored_as (saved_key (Account_new (User_id user) (Bar_id bar)) w) (clock w)
                      (Account_new (User_id user) (Bar_id bar))).
    eexists. split; [reflexivity|]. cbn [account_table with_accounts].
    split; [apply lookup_insert_eq|]. split; [reflexivity|]. split; [reflexivity|].
    split; [intros Hsome; contradiction|].
    apply unique_together_insert; [exact Huniq|].
    intros j row Hrow. exact (no_row_with_pair _ _ w Hnone j row Hrow).
  - rewrite Hone, QuerySet_get_singleton.
    assert (accounts_of (User_id user) (Bar_id bar) w !! k = Some row) as Hin
      by (rewrite Hone; apply lookup_singleton_eq).
    apply map_lookup_filter_Some in Hin as [Hrow [Ho Hb]]. cbn in Ho, Hb.
    exists k, row, w. now repeat split.
Qed.

(** X20: [get_default_account] is idempotent: a second call, in the store
    the first one left, returns the same account and changes nothing, also
    when the first call had to create the account. *)
Theorem get_default_account_twice (bar : Bar) (w : World) :
  unique_together (account_table w) ->
  exists x w1,
    default_account bar w = inr (x, w1)
    /\ default_account bar w1 = inr (x, w1).
Proof.
  intros Huniq. unfold get_default_account, Account_get_or_create.
  destruct (accounts_of_at_most_one (User_id user) (Bar_id bar) w Huniq)
    as [Hnone|(k & row & Hone)].
  - rewrite Hnone, QuerySet_get_empty.
    pose proof (accounts_of_after_creation _ _ w Hnone) as Hafter.
    rewrite Account_save_eq in Hafter |- *. cbn [world_after] in Hafter.
    eexists _, _. split; [reflexivity|].
    cbv zeta in Hafter. rewrite Hafter, QuerySet_get_singleton. reflexivity.
  - rewrite Hone, QuerySet_get_singleton.
    exists (loaded k row), w. split; [reflexivity|].
    now rewrite Hone, QuerySet_get_singleton.
Qed.

(** X21: when the default user has no account in the bar yet,
    [get_default_account] creates one with the model's defaults: balance
    zero, no overdraft date, not soft-deleted.  The user is granted the
    "customer" role, the rows that were there are kept, and the bar's
    [count_accounts] grows by one. *)
Theorem get_default_account_creates (bar : Bar) (w : World) :
  accounts_of (User_id user) (Bar_id bar) w = ∅ ->
  exists x w',
    default_account bar w = inr (x, w')
    /\ Account_money x = 0%float
    /\ Account_overdrawn_since x = None
    /\ Account_deleted x = false
    /\ (exists k, Account_id x = Some k
                  /\ account_table w !! k = None
                  /\ account_table w' !! k = Some x)
    /\ (forall j row, account_table w !! j = Some row -> account_table w' !! j = Some row)
    /\ ("customer", Bar_id bar, User_id user) ∈ role_table w'
    /\ Bar_count_accounts bar w' = S (Bar_count_accounts bar w).
Proof.
  intros Hnone. unfold get_default_account, Account_get_or_create.
  rewrite Hnone, QuerySet_get_empty.
  pose proof (saved_key_fresh (Account_new (User_id user) (Bar_id bar)) w eq_refl)
    as Hfresh.
  pose proof (count_accounts_after_insert bar
                (saved_key (Account_new (User_id user) (Bar_id bar)) w)
                (stored_as (saved_key (Account_new (User_id user) (Bar_id bar)) w)
                           (clock w) (Account_new (User_id user) (Bar_id bar))) w)
    as Hcount.
  rewrite Hfresh, Nat.add_0_r, counts_for_stored_as in Hcount.
  rewrite Account_save_eq.
  eexists _, _. split; [reflexivity|].
  split; [reflexivity|]. split; [reflexivity|]. split; [reflexivity|].
  split.
  { eexists. split; [reflexivity|]. split; [exact Hfresh|]. cbn. apply lookup_insert_eq. }
  split.
  { intros j row Hrow. cbn [account_table with_accounts].
    rewrite lookup_insert_ne; [exact Hrow|].
    intros Heq. rewrite <- Heq, Hfresh in Hrow. discriminate Hrow. }
  split; [cbn; set_solver|].
  assert (counts_for bar (Account_new (User_id user) (Bar_id bar)) = 1%nat) as Hone.
  { rewrite bool_decide_true; [reflexivity|]. now split. }
  rewrite Hone in Hcount. rewrite !count_accounts_filter in Hcount |- *.
  cbn [account_table with_accounts] in Hcount |- *. lia.
Qed.

End DefaultAccountFacts.

(** * Passwords of [bars_api.auth.User] *)

Section AuthFacts.

Variable sha512_hexdigest : string -> string.

Abbreviation set_pw := (set_password sha512_hexdigest).
Abbreviation check_pw := (check_password sha512_hexdigest).

(** X22: after [set_password(raw)], [check_password(raw)] is true, and
    [check_password] of any other string is true exactly when its digest
    equals the digest of [raw]; the names of the user are not touched. *)
Theorem set_then_check_password (u : AuthUser) (raw : string) :
  check_pw (set_pw u raw) raw = true
  /\ (forall other,
        check_pw (set_pw u raw) other = true
        <-> sha512_hexdigest other = sha512_hexdigest raw)
  /\ get_username (set_pw u raw) = get_username u
  /\ get_full_name (set_pw u raw) = get_full_name u.
Proof.
  unfold check_password, set_password, make_password. cbn.
  split; [now apply bool_decide_eq_true|].
  split.
  { intros other. rewrite bool_decide_eq_true. split; congruence. }
  now repeat split.
Qed.

(** X23: [set_unusable_password] stores the digest of the empty string, so
    afterwards [check_password("")] is true and [has_usable_password()] is
    true as well; for every user [has_usable_password()] is the very test
    [check_password("")]. *)
Theorem unusable_password_is_the_empty_password (u : AuthUser) :
  check_pw (set_unusable_password sha512_hexdigest u) "" = true
  /\ has_usable_password sha512_hexdigest (set_unusable_password sha512_hexdigest u) = true
  /\ has_usable_password sha512_hexdigest u = check_pw u ""
  /\ set_unusable_password sha512_hexdigest u = set_pw u "".
Proof.
  unfold check_password, has_usable_password, set_unusable_password, set_password,
    make_password. cbn.
  split; [now apply bool_decide_eq_true|].
  split; [now apply bool_decide_eq_true|].
  now split.
Qed.

End AuthFacts.

(** * [ItemDetailsSerializer.to_representation] *)

Lemma QueryDict_get_is_Some (key : string) (params : list (string * string)) :
  is_Some (QueryDict_get key params) <-> exists v, (key, v) ∈ params.
Proof.
  unfold QueryDict_get. rewrite fmap_last, fmap_is_Some, last_is_Some.
  split.
  - intros Hne. destruct (filter (fun kv => kv.1 = key) params) as [|[k v] l] eqn:Hf;
      [contradiction|].
    assert ((k, v) ∈ filter (fun kv : string * string => kv.1 = key) params) as Hin
      by (rewrite Hf; apply list_elem_of_here).
    apply list_elem_of_filter in Hin as [Hk Hin]. cbn in Hk. subst k. eauto.
  - intros [v Hin] Hnil.
    assert ((key, v) ∈ filter (fun kv : string * string => kv.1 = key) params) as Hf
      by (apply list_elem_of_filter; now split).
    rewrite Hnil in Hf. now apply not_elem_of_nil in Hf.
Qed.

Section ItemDetailsFacts.

Variable super_to_representation : ItemDetails -> gmap string json.

Abbreviation represent := (to_representation super_to_representation).

(** X24: whatever the context, when [to_representation] returns it has
    written at most the key "stockitem": every other key of the model's
    representation is there with the same value, and either nothing was
    touched or "stockitem" is present. *)
Theorem to_representation_writes_only_stockitem
    (context_request : option SerializerRequest) (stock : list StockItem)
    (itemdetails : ItemDetails) (obj : gmap string json) :
  represent context_request stock itemdetails = inr obj ->
  (forall key, key <> "stockitem" ->
               obj !! key = super_to_representation itemdetails !! key)
  /\ (obj = super_to_representation itemdetails \/ is_Some (obj !! "stockitem")).
Proof.
  unfold to_representation. intros Hobj.
  assert (forall v, (forall key, key <> "stockitem" ->
                       <["stockitem" := v]> (super_to_representation itemdetails) !! key
                       = super_to_representation itemdetails !! key)
                    /\ is_Some (<["stockitem" := v]>
                                  (super_to_representation itemdetails) !! "stockitem"))
    as Hwritten.
  { intros v. split.
    - intros key Hkey. now rewrite lookup_insert_ne by congruence.
    - rewrite lookup_insert_eq. eauto. }
  repeat match type of Hobj with
         | context [match ?x with _ => _ end] => destruct x
         end;
    try discriminate Hobj; injection Hobj as <-;
    try (split; [reflexivity|now left]);
    (split; [apply Hwritten|right; apply Hwritten]).
Qed.

(** X25: on a GET request without a "bar" parameter the representation is
    the model's, untouched.  With a "bar" parameter and prefetched stock
    items, "stockitem" is the id of the first of them, or null when there
    is none (the [IndexError] is swallowed); without the prefetch the call
    fails with [AttributeError].  The [StockItem] table is never read. *)
Theorem to_representation_on_GET (request : SerializerRequest) (stock : list StockItem)
    (itemdetails : ItemDetails) :
  SerializerRequest_method request = "GET" ->
  let params := SerializerRequest_query_params request in
  let obj := super_to_representation itemdetails in
  ((forall v, ("bar", v) ∉ params) ->
     represent (Some request) stock itemdetails = inr obj)
  /\ (forall v, ("bar", v) ∈ params ->
        match ItemDetails_stockitems itemdetails with
        | Some [] =>
            represent (Some request) stock itemdetails
            = inr (<["stockitem" := JNull]> obj)
        | Some (first :: _) =>
            represent (Some request) stock itemdetails
            = inr (<["stockitem" := JInt (Z.of_N (StockItem_id first))]> obj)
        | None =>
            represent (Some request) stock itemdetails = inl AttributeError
        end).
Proof.
  intros Hget params obj. unfold to_representation.
  rewrite Hget, String.eqb_refl. fold params obj. split.
  - intros Hnone. destruct (QueryDict_get "bar" params) as [v|] eqn:Hbar; [|reflexivity].
    exfalso. assert (is_Some (QueryDict_get "bar" params)) as Hsome by eauto.
    apply QueryDict_get_is_Some in Hsome as [v' Hin]. exact (Hnone v' Hin).
  - intros v Hin.
    assert (is_Some (QueryDict_get "bar" params)) as [x ->]
      by (apply QueryDict_get_is_Some; eauto).
    now destruct (ItemDetails_stockitems itemdetails) as [[|first rest]|].
Qed.

(** X26: outside GET requests the stock item is looked up in the table
    for the bar of the request.  With no request in the context the
    model's representation is returned untouched (the [KeyError] is
    swallowed); a request without the attribute [bar] makes the call fail
    with [AttributeError]; with the attribute, no stock item of that bar
    for these details leaves the representation untouched ([DoesNotExist]
    is swallowed), exactly one has its id written, and several make the
    call fail, which is then its only failure. *)
Theorem to_representation_outside_GET (stock : list StockItem) (itemdetails : ItemDetails) :
  let obj := super_to_representation itemdetails in
  represent None stock itemdetails = inr obj
  /\ forall request,
       SerializerRequest_method request <> "GET" ->
       (SerializerRequest_bar request = None ->
          represent (Some request) stock itemdetails = inl AttributeError)
       /\ forall bar : option Bar,
            SerializerRequest_bar request = Some bar ->
            let matching :=
              filter (fun s => Some (StockItem_bar s) = (Bar_id <$> bar)
                               /\ StockItem_details s = ItemDetails_id itemdetails)
                     stock in
            (matching = [] -> represent (Some request) stock itemdetails = inr obj)
            /\ (forall s, matching = [s] ->
                  represent (Some request) stock itemdetails
                  = inr (<["stockitem" := JInt (Z.of_N (StockItem_id s))]> obj))
            /\ (forall e, represent (Some request) stock itemdetails = inl e ->
                  e = StockItem_MultipleObjectsReturned /\ (2 <= length matching)%nat).
Proof.
  intros obj. split; [reflexivity|].
  intros request Hmethod. unfold to_representation, StockItem_get.
  apply String.eqb_neq in Hmethod. rewrite Hmethod. fold obj.
  split; [now intros ->|].
  intros bar ->. set (matching := filter _ stock).
  split; [now intros ->|]. split; [now intros s ->|].
  intros e. destruct matching as [|s [|s' rest]]; try discriminate.
  intros He. injection He as <-. split; [reflexivity|cbn; lia].
Qed.

End ItemDetailsFacts.

(** * The further theorems at work on the sample store *)

Lemma unique_together_singleton (k : pk) (a : Account) :
  unique_together ({[ k := a ]} : gmap pk Account).
Proof.
  intros i j x y Hx Hy _ _.
  apply lookup_singleton_Some in Hx as [<- _].
  now apply lookup_singleton_Some in Hy as [<- _].
Qed.

(** On the sample store, whose one row is the account of owner 3, the pair
    of [newcomer] (owner 4) is free and the pair of [double] (owner 3) is
    taken; so is the pair of the stored account itself, for its own row
    does not count. *)
Lemma sample_pair_free (money : float) (since : option datetime.date) :
  ~ pair_taken newcomer (world_on 735000 (settings_with true 2 0.05) (account7 money since)).
Proof.
  intros (j & row & Hrow & _ & Howner & _). cbn [account_table world_on] in Hrow.
  apply lookup_singleton_Some in Hrow as [_ <-]. discriminate.
Qed.

Lemma sample_pair_taken (money : float) (since : option datetime.date) :
  pair_taken double (world_on 735000 (settings_with true 2 0.05) (account7 money since)).
Proof.
  exists 7%N, (account7 money since).
  split; [reflexivity|]. split; [discriminate|]. split; reflexivity.
Qed.

Lemma sample_own_pair_free (money money' : float) (since since' : option datetime.date) :
  ~ pair_taken (account7 money' since')
      (world_on 735000 (settings_with true 2 0.05) (account7 money since)).
Proof.
  intros (j & row & Hrow & Hj & _). cbn [account_table world_on] in Hrow.
  apply lookup_singleton_Some in Hrow as [<- _]. now apply Hj.
Qed.

Lemma Account_save_inserts_new_account_witness :
  let w := world_on 735000 (settings_with true 2 0.05) (account7 0 None) in
  (exists k w',
     Account_save_checked newcomer w = Saved (stored_as k (clock w) newcomer) w'
     /\ k <> 0%N
     /\ size (account_table w') = 2%nat
     /\ ("customer", "avironjone", 4%N) ∈ role_table w')
  /\ (exists w',
        Account_save_checked double w = IntegrityError w'
        /\ size (account_table w') = 1%nat).
Proof.
  intros w. split.
  - destruct (Account_save_inserts_new_account newcomer w eq_refl) as [Haccepted _].
    destruct (Haccepted (sample_pair_free 0 None))
      as (k & w' & Hsave & Hk & _ & _ & _ & Hsize & Hrole & _).
    exists k, w'. split; [exact Hsave|]. split; [exact Hk|].
    split; [exact Hsize|exact Hrole].
  - destruct (Account_save_inserts_new_account double w eq_refl) as [_ Hrefused].
    destruct (Hrefused (sample_pair_taken 0 None)) as (w' & Hsave & Htable).
    exists w'. split; [exact Hsave|]. now rewrite Htable.
Defined.

Lemma Account_save_updates_one_row_witness :
  let w := world_on 735000 (settings_with true 2 0.05) (account7 0 None) in
  exists w',
    Account_save_checked (account7 5 None) w
      = Saved (stored_as 7%N (clock w) (account7 5 None)) w'
    /\ size (account_table w') = size (account_table w)
    /\ role_table w' = role_table w.
Proof.
  intros w.
  destruct (Account_save_updates_one_row (account7 5 None) 7%N w eq_refl)
    as [Haccepted _].
  destruct (Haccepted (sample_own_pair_free 0 5 None None))
    as (w' & Hsave & _ & _ & Hsize & Hroles & _).
  exists w'. split; [exact Hsave|]. split.
  - apply Hsize. exists (account7 0 None). reflexivity.
  - apply Hroles. discriminate.
Defined.

Lemma Account_save_twice_witness :
  let w := world_on 735000 (settings_with true 2 0.05) (account7 0 None) in
  exists a1 w1,
    Account_save_checked newcomer w = Saved a1 w1
    /\ Account_save_checked a1 w1 = Saved a1 w1.
Proof.
  intros w.
  pose proof (Account_save_checked_accepted newcomer w (sample_pair_free 0 None))
    as Hfirst.
  eexists _, _. split; [exact Hfirst|].
  exact (Account_save_twice _ _ _ _ Hfirst).
Defined.

Lemma Account_save_keeps_unique_together_witness :
  let w := world_on 735000 (settings_with true 2 0.05) (account7 0 None) in
  unique_together (account_table (world_after (Account_save (account7 5 None) w))).
Proof.
  intros w.
  apply (Account_save_keeps_unique_together (account7 5 None) (account7 0 None) 7%N w).
  - apply unique_together_singleton.
  - reflexivity.
  - reflexivity.
  - reflexivity.
  - reflexivity.
Defined.

Lemma Account_save_new_keeps_unique_together_witness :
  let w := world_on 735000 (settings_with true 2 0.05) (account7 0 None) in
  unique_together (account_table (world_after (Account_save newcomer w))).
Proof.
  intros w. apply (Account_save_new_keeps_unique_together newcomer w).
  - apply unique_together_singleton.
  - reflexivity.
  - vm_compute. reflexivity.
Defined.

Lemma apply_agios_nan_balance_is_noop_witness :
  let account := account7 nan (Some 735000) in
  let w := world_on 735009 (settings_with true 2 0.05) account in
  Bar_apply_agios the_bot accept_all avironjone account w = Returns (0%float, account) w.
Proof.
  intros account w.
  exact (apply_agios_nan_balance_is_noop the_bot accept_all avironjone account w eq_refl).
Defined.

Lemma apply_agios_unusable_threshold_witness :
  let account := account7 (-10) (Some 735000) in
  let w := world_on 735009 (settings_with true nan 0.05) account in
  Bar_apply_agios the_bot accept_all avironjone account w = Raises ValueError w.
Proof.
  intros account w.
  destruct (apply_agios_unusable_threshold the_bot accept_all avironjone account w
              (settings_with true nan 0.05) datetime.NaNToInteger
              eq_refl eq_refl eq_refl eq_refl) as [Hraises _].
  exact Hraises.
Defined.

Lemma apply_agios_rejected_fee_witness :
  let account := account7 (-10) (Some 735000) in
  let w := world_on 735009 (settings_with true 2 0.05) account in
  Bar_apply_agios the_bot reject_all avironjone account w = Raises ValidationError w.
Proof.
  intros account w.
  destruct (apply_agios_rejected_fee the_bot reject_all avironjone account w
              (settings_with true 2 0.05) (2 * datetime.us_per_day)
              eq_refl eq_refl eq_refl eq_refl eq_refl eq_refl) as [Hraises _].
  exact Hraises.
Defined.

Lemma apply_agios_keeps_object_fields_witness :
  let account := account7 (-10) (Some 735000) in
  let w := world_on 735002 (settings_with true 2 0.05) account in
  let w' := world_after (Bar_apply_agios the_bot accept_all avironjone account w) in
  Bar_apply_agios the_bot accept_all avironjone account w = Returns (0.5%float, account) w'
  /\ Account_money account = (-10)%float
  /\ (Account_money <$> account_table w' !! 7%N) = Some (-10.5)%float.
Proof.
  intros account w w'.
  assert (Bar_apply_agios the_bot accept_all avironjone account w
          = Returns (0.5%float, account) w') as Hreturns by (vm_compute; reflexivity).
  split; [exact Hreturns|].
  destruct (apply_agios_keeps_object_fields the_bot accept_all avironjone
              account account w w' 0.5 Hreturns) as (Hmoney & _).
  split; [exact Hmoney|vm_compute; reflexivity].
Defined.

Lemma apply_agios_rerun_same_day_witness :
  let account := account7 (-10) None in
  let w := world_on 735000 (settings_with true 2 0.05) account in
  exists a1 w1,
    Bar_apply_agios the_bot accept_all avironjone account w = Returns (0%float, a1) w1
    /\ Account_overdrawn_since a1 = Some 735000
    /\ Bar_apply_agios the_bot accept_all avironjone a1 w1 = Returns (0%float, a1) w1.
Proof.
  intros account w.
  apply (apply_agios_rerun_same_day the_bot accept_all avironjone account w
           (settings_with true 2 0.05) eq_refl eq_refl).
  right. exists (2 * datetime.us_per_day). split; reflexivity.
Defined.



Lemma count_accounts_after_new_account_witness :
  let w := world_on 735000 (settings_with true 2 0.05) (account7 0 None) in
  (exists a' w',
     Account_save_checked newcomer w = Saved a' w'
     /\ Bar_count_accounts avironjone w' = 2%nat)
  /\ (exists w',
        Account_save_checked double w = IntegrityError w'
        /\ Bar_count_accounts avironjone w' = 1%nat).
Proof.
  intros w. split.
  - destruct (count_accounts_after_new_account avironjone newcomer w eq_refl)
      as [Haccepted _].
    destruct (Haccepted (sample_pair_free 0 None)) as (a' & w' & Hsave & Hcount).
    exists a', w'. split; [exact Hsave|exact Hcount].
  - destruct (count_accounts_after_new_account avironjone double w eq_refl)
      as [_ Hrefused].
    destruct (Hrefused (sample_pair_taken 0 None)) as (w' & Hsave & Hcount).
    exists w'. split; [exact Hsave|exact Hcount].
Defined.

Lemma count_accounts_after_update_witness :
  let w := world_on 735000 (settings_with true 2 0.05) (account7 0 None) in
  exists a' w',
    Account_save_checked (account7 5 None) w = Saved a' w'
    /\ Bar_count_accounts avironjone w' = Bar_count_accounts avironjone w.
Proof.
  intros w.
  destruct (count_accounts_after_update avironjone (account7 5 None) (account7 0 None)
              7%N w eq_refl eq_refl) as [Haccepted _].
  destruct (Haccepted (sample_own_pair_free 0 5 None None))
    as (a' & w' & Hsave & _ & Hsame).
  exists a', w'. split; [exact Hsave|exact (Hsame eq_refl eq_refl)].
Defined.

Lemma get_default_account_returns_witness :
  let w := world_on 735000 (settings_with true 2 0.05) (account7 0 None) in
  exists k row w',
    get_default_account the_bot avironjone w = inr (loaded k row, w')
    /\ Account_owner row = 1%N
    /\ Account_bar row = "avironjone".
Proof.
  intros w.
  destruct (get_default_account_returns bot avironjone w
              (unique_together_singleton 7%N (account7 0 None)))
    as (k & row & w' & Hcall & _ & Howner & Hbar & _).
  exists k, row, w'. split; [exact Hcall|]. split; [exact Howner|exact Hbar].
Defined.

Lemma get_default_account_twice_witness :
  let w := world_on 735000 (settings_with true 2 0.05) (account7 0 None) in
  exists x w1,
    get_default_account the_bot avironjone w = inr (x, w1)
    /\ get_default_account the_bot avironjone w1 = inr (x, w1).
Proof.
  intros w.
  exact (get_default_account_twice bot avironjone w
           (unique_together_singleton 7%N (account7 0 None))).
Defined.

Lemma get_default_account_creates_witness :
  let w := world_on 735000 (settings_with true 2 0.05) (account7 0 None) in
  exists x w',
    get_default_account the_bot avironjone w = inr (x, w')
    /\ Account_money x = 0%float
    /\ Bar_count_accounts avironjone w' = 2%nat.
Proof.
  intros w.
  destruct (get_default_account_creates bot avironjone w)
    as (x & w' & Hcall & Hmoney & _ & _ & _ & _ & _ & Hcount);
    [vm_compute; reflexivity|].
  exists x, w'. split; [exact Hcall|]. split; [exact Hmoney|exact Hcount].
Defined.

Lemma to_representation_writes_only_stockitem_witness :
  to_representation name_only (Some post_request) beer_stock beer
    = inr (<["stockitem" := JInt 5]> (name_only beer))
  /\ (<["stockitem" := JInt 5]> (name_only beer) : gmap string json) !! "name"
     = name_only beer !! "name".
Proof.
  assert (to_representation name_only (Some post_request) beer_stock beer
          = inr (<["stockitem" := JInt 5]> (name_only beer))) as Hwritten
    by (vm_compute; reflexivity).
  split; [exact Hwritten|].
  destruct (to_representation_writes_only_stockitem name_only (Some post_request)
              beer_stock beer _ Hwritten) as [Hkept _].
  apply Hkept. discriminate.
Defined.

(** A POST request that has no attribute [bar]. *)
Example to_representation_without_bar :
  to_representation name_only (Some request_without_bar) beer_stock beer
  = inl AttributeError.
Proof. reflexivity. Qed.

Lemma to_representation_on_GET_witness :
  to_representation name_only (Some get_request_in_bar) beer_stock beer
  = inr (<["stockitem" := JNull]> (name_only beer)).
Proof.
  destruct (to_representation_on_GET name_only get_request_in_bar beer_stock beer eq_refl)
    as [_ Hbar].
  exact (Hbar "avironjone" (list_elem_of_here _ _)).
Defined.
